(** * TerraDrawPolygonMode: the click-driven polygon drawing mode

    A shallow embedding of [src/modes/polygon/polygon.mode.ts].  The mode is
    a class whose handlers mutate a few private fields and talk to three
    collaborators (the feature store, the closing-points behaviour and the
    snapping behaviour).  The handlers are written here in a state and
    exception monad over the [World] the mode lives in; the collaborators,
    whose sources are not part of the mode, are an interface
    ([Collaborators]) that every statement below is generic in.  A reference
    implementation of that interface, following the collaborator contracts
    of the specification, lets the handlers run on concrete events. *)

From Stdlib Require Import PrimFloat.
From stdpp Require Import base option list strings pretty gmap.

#[local] Set Warnings "-inexact-float".

Local Open Scope string_scope.
Local Open Scope nat_scope.
Local Open Scope list_scope.
Local Open Scope stdpp_scope.

(** ** Data model *)

(** A JavaScript [number]: an IEEE 754 binary64. *)
Definition number : Type := float.

(** GeoJSON [Position], always built here as the pair [[lng, lat]]. *)
Definition Position : Type := number * number.

(** An entry read from a JavaScript array of positions: reading out of
    range yields [undefined], which is [None]. *)
Definition Coord : Type := option Position.

(** A linear ring as the mode handles it: a JavaScript array of positions. *)
Definition Ring : Type := list Coord.

Inductive Geometry : Type :=
  | Polygon (coordinates : list Ring)
  | Point (coordinates : Position).

Definition Id : Type := string.

(** A GeoJSON feature handed to the store: a geometry and its properties
    (a JSON object with string values). *)
Record Feature : Type := mkFeature {
  geometry : Geometry;
  properties : list (string * string)
}.

(** Pointer event: projected map coordinates and the raw pixel position. *)
Record TerraDrawMouseEvent : Type := mkMouseEvent {
  lng : number;
  lat : number;
  containerX : number;
  containerY : number
}.

Record TerraDrawKeyboardEvent : Type := mkKeyboardEvent {
  key : string
}.

Record TerraDrawPolygonModeKeyEvents : Type := mkKeyEvents {
  cancel : string
}.

(** The answer of [ClosingPointsBehavior.isClosingPoint]. *)
Record ClosingFlags : Type := mkClosingFlags {
  isClosing : bool;
  isPreviousClosing : bool
}.

(** ** Outcomes of effectful calls

    A call either returns a value or throws; in both cases it leaves a
    state behind (mutations made before a throw persist). *)
Inductive Res (S A : Type) : Type :=
  | Ret (a : A) (s : S)
  | Exn (s : S).
Arguments Ret {S A} a s.
Arguments Exn {S A} s.

Definition res_state {S A : Type} (r : Res S A) : S :=
  match r with
  | Ret _ s => s
  | Exn s => s
  end.

Definition returned {S A : Type} (r : Res S A) : bool :=
  match r with
  | Ret _ _ => true
  | Exn _ => false
  end.

(** ** The collaborators of the mode, as an interface

    Queries ([getGeometryCopy], [isClosingPoint], [getSnappableCoordinate],
    the getter [ids]) do not change any state; they answer [None] when the
    call throws.  The closing-points behaviour shares the store of the mode,
    so its commands act on both its own state and the store. *)
Class Collaborators : Type := {
  Store : Type;
  ClosingPoints : Type;
  (* this.store *)
  store_create : list Feature -> Store -> Res Store (list Id);
  store_updateGeometry : list (Id * Geometry) -> Store -> Res Store unit;
  store_delete : list Id -> Store -> Res Store unit;
  store_getGeometryCopy : Id -> Store -> option Geometry;
  (* this.closingPoints *)
  closingPoints_ids : ClosingPoints -> list Id;
  closingPoints_create :
    Ring -> string -> ClosingPoints * Store -> Res (ClosingPoints * Store) unit;
  closingPoints_update :
    Ring -> ClosingPoints * Store -> Res (ClosingPoints * Store) unit;
  closingPoints_delete :
    ClosingPoints * Store -> Res (ClosingPoints * Store) unit;
  closingPoints_isClosingPoint :
    TerraDrawMouseEvent -> ClosingPoints * Store -> option ClosingFlags;
  (* this.snapping *)
  snapping_getSnappableCoordinate :
    TerraDrawMouseEvent -> Id -> Store -> option (option Position);
  (* imported pure functions *)
  coordinatesIdentical : Position -> Coord -> option bool;
  selfIntersects : Feature -> bool;
  Math_pow : number -> number -> number
}.

(** [Math.max] on two numbers: NaN if either is NaN, and [+0] above [-0]. *)
Definition Math_max (a b : number) : number :=
  if (is_nan a || is_nan b)%bool then nan
  else if PrimFloat.ltb a b then b
  else if PrimFloat.ltb b a then a
  else if get_sign a then b else a.

(** Modelled from the spec: [createPolygon] of [util/geoms] is not among the
    sources.  The candidate ring is committed as it was built, so the
    feature carries the given coordinates as a Polygon geometry; it has no
    properties of its own. *)
Definition createPolygon (coordinates : list Ring) : Feature :=
  {| geometry := Polygon coordinates; properties := [] |}.

(** JavaScript truthiness of [string | undefined]: [undefined] and the empty
    string are falsy. *)
Definition truthy (id : option Id) : option Id :=
  match id with
  | Some EmptyString => None
  | Some s => Some s
  | None => None
  end.

Section Mode.
Context `{Collaborators}.

(** The private fields of [TerraDrawPolygonMode]; [coordinatePrecision] is
    inherited from the base mode. *)
Record Mode : Type := mkMode {
  currentCoordinate : nat;
  currentId : option Id;
  allowSelfIntersections : bool;
  keyEvents : TerraDrawPolygonModeKeyEvents;
  snappingEnabled : bool;
  isClosed : bool;
  coordinatePrecision : number
}.

(** What a handler can touch: the mode itself, the store, the
    closing-points behaviour and the cursor of the map. *)
Record World : Type := mkWorld {
  this : Mode;
  store : Store;
  closingPoints : ClosingPoints;
  cursor : string
}.

Definition mode : string := "polygon".

(** *** Field updates *)

Definition set_currentCoordinate (n : nat) (m : Mode) : Mode :=
  {| currentCoordinate := n;
     currentId := currentId m;
     allowSelfIntersections := allowSelfIntersections m;
     keyEvents := keyEvents m;
     snappingEnabled := snappingEnabled m;
     isClosed := isClosed m;
     coordinatePrecision := coordinatePrecision m |}.

Definition set_currentId (id : option Id) (m : Mode) : Mode :=
  {| currentCoordinate := currentCoordinate m;
     currentId := id;
     allowSelfIntersections := allowSelfIntersections m;
     keyEvents := keyEvents m;
     snappingEnabled := snappingEnabled m;
     isClosed := isClosed m;
     coordinatePrecision := coordinatePrecision m |}.

Definition set_isClosed (b : bool) (m : Mode) : Mode :=
  {| currentCoordinate := currentCoordinate m;
     currentId := currentId m;
     allowSelfIntersections := allowSelfIntersections m;
     keyEvents := keyEvents m;
     snappingEnabled := snappingEnabled m;
     isClosed := b;
     coordinatePrecision := coordinatePrecision m |}.

Definition with_this (m : Mode) (w : World) : World :=
  {| this := m; store := store w;
     closingPoints := closingPoints w; cursor := cursor w |}.

Definition with_store (s : Store) (w : World) : World :=
  {| this := this w; store := s;
     closingPoints := closingPoints w; cursor := cursor w |}.

Definition with_behavior (cs : ClosingPoints * Store) (w : World) : World :=
  {| this := this w; store := cs.2;
     closingPoints := cs.1; cursor := cursor w |}.

Definition with_cursor (c : string) (w : World) : World :=
  {| this := this w; store := store w;
     closingPoints := closingPoints w; cursor := c |}.

(** *** The handler monad *)

Definition M (A : Type) : Type := World -> Res World A.

#[global] Instance M_ret : MRet M := fun A a w => Ret a w.

#[global] Instance M_bind : MBind M := fun A B f m w =>
  match m w with
  | Ret a w' => f a w'
  | Exn w' => Exn w'
  end.

Definition throw {A : Type} : M A := fun w => Exn w.

(** [try { m } catch (error) { }] *)
Definition try_catch (m : M unit) : M unit := fun w =>
  match m w with
  | Ret _ w' => Ret tt w'
  | Exn w' => Ret tt w'
  end.

Definition get_this : M Mode := fun w => Ret (this w) w.

(** Reading one field of [this]. *)
Definition gets {A : Type} (f : Mode -> A) : M A := fun w => Ret (f (this w)) w.

Definition modify_this (f : Mode -> Mode) : M unit := fun w =>
  Ret tt (with_this (f (this w)) w).

(** A command of the store. *)
Definition call_store {A : Type} (f : Store -> Res Store A) : M A := fun w =>
  match f (store w) with
  | Ret a s => Ret a (with_store s w)
  | Exn s => Exn (with_store s w)
  end.

(** A command of the closing-points behaviour. *)
Definition call_behavior {A : Type}
    (f : ClosingPoints * Store -> Res (ClosingPoints * Store) A) : M A :=
  fun w =>
  match f (closingPoints w, store w) with
  | Ret a cs => Ret a (with_behavior cs w)
  | Exn cs => Exn (with_behavior cs w)
  end.

(** A query: a value, or an exception, and no change of state. *)
Definition query {A : Type} (f : World -> option A) : M A := fun w =>
  match f w with
  | Some a => Ret a w
  | None => Exn w
  end.

(** Modelled from the spec: [setCursor] belongs to the base mode, which is
    not among the sources; the Style/Cursor collaborator offers
    [setCursor(name)], which records the cursor to show. *)
Definition setCursor (c : string) : M unit := fun w =>
  Ret tt (with_cursor c w).

(** *** Array accesses on a value that may be [undefined] *)

(** [a[i]]: a TypeError when [a] is undefined, [undefined] out of range. *)
Definition index (a : option Ring) (i : nat) : M Coord :=
  match a with
  | None => throw
  | Some r => mret (mjoin (r !! i))
  end.

(** [a.slice(0, -k)] *)
Definition slice_to (a : option Ring) (k : nat) : M Ring :=
  match a with
  | None => throw
  | Some r => mret (take (length r - k) r)
  end.

(** [this.store.getGeometryCopy<Polygon>(id).coordinates[0]].  The type
    parameter promises a Polygon; a Point behind the handle is a type error
    of the store's content and is modelled as a throw. *)
Definition polygonCoordinates (id : Id) : M (option Ring) :=
  g ← query (fun w => store_getGeometryCopy id (store w));
  match g with
  | Polygon rings => mret (head rings)
  | Point _ => throw
  end.

(** The snap step: [event.lng = closestCoord[0]; event.lat = closestCoord[1]]
    when a replacement was found.  The event object is mutated in place; the
    handlers return it as the caller sees it afterwards. *)
Definition snap (closestCoord : option Position) (event : TerraDrawMouseEvent)
    : TerraDrawMouseEvent :=
  match closestCoord with
  | Some c =>
      {| lng := c.1; lat := c.2;
         containerX := containerX event; containerY := containerY event |}
  | None => event
  end.

Definition position (event : TerraDrawMouseEvent) : Coord :=
  Some (lng event, lat event).

(** *** The constructor *)

Record Options : Type := mkOptions {
  opt_allowSelfIntersections : option bool;
  opt_snapping : option bool;
  opt_pointerDistance : option number;
  opt_keyEvents : option TerraDrawPolygonModeKeyEvents
}.

(** [constructor(options?)].  [super(options)] initialises the inherited
    fields; [precision] is the [coordinatePrecision] it leaves behind. *)
Definition constructor (options : option Options) (precision : number) : Mode :=
  {| currentCoordinate := 0;
     currentId := None;
     allowSelfIntersections :=
       match options with
       | Some o =>
           match opt_allowSelfIntersections o with
           | Some b => b
           | None => true
           end
       | None => true
       end;
     keyEvents :=
       match options with
       | Some o =>
           match opt_keyEvents o with
           | Some k => k
           | None => {| cancel := "Escape" |}
           end
       | None => {| cancel := "Escape" |}
       end;
     snappingEnabled :=
       match options with
       | Some o =>
           match opt_snapping o with
           | Some b => b
           | None => false
           end
       | None => false
       end;
     isClosed := false;
     coordinatePrecision := precision |}.

(** *** onMouseMove *)

Definition onMouseMove (event : TerraDrawMouseEvent) : M TerraDrawMouseEvent :=
  setCursor "crosshair";;
  self ← get_this;
  match truthy (currentId self) with
  | None => mret event
  | Some id =>
    if (currentCoordinate self =? 0)%nat then mret event else
    closestCoord ←
      (if snappingEnabled self
       then query (fun w => snapping_getSnappableCoordinate event id (store w))
       else mret None);
    currentPolygonCoordinates ← polygonCoordinates id;
    let event := snap closestCoord event in
    updatedCoordinates ←
      (if (currentCoordinate self =? 1)%nat then
         let epsilon :=
           PrimFloat.div 1%float
             (Math_pow 10%float
                (PrimFloat.sub (coordinatePrecision self) 1%float)) in
         let offset := Math_max 0.000001%float epsilon in
         c0 ← index currentPolygonCoordinates 0;
         c0' ← index currentPolygonCoordinates 0;
         mret [c0;
               Some (lng event, lat event);
               Some (lng event, PrimFloat.add (lat event) offset);
               c0']
       else if (currentCoordinate self =? 2)%nat then
         c0 ← index currentPolygonCoordinates 0;
         c1 ← index currentPolygonCoordinates 1;
         c0' ← index currentPolygonCoordinates 0;
         mret [c0; c1; Some (lng event, lat event); c0']
       else
         flags ← query (fun w =>
           closingPoints_isClosingPoint event (closingPoints w, store w));
         if isPreviousClosing flags || isClosing flags then
           setCursor "pointer";;
           committed ← slice_to currentPolygonCoordinates 2;
           c0 ← index currentPolygonCoordinates 0;
           c0' ← index currentPolygonCoordinates 0;
           closed ← gets isClosed;
           (if negb closed then modify_this (set_isClosed true) else mret tt);;
           mret (committed ++ [c0; c0'])
         else
           closed ← gets isClosed;
           (if closed : bool then modify_this (set_isClosed false) else mret tt);;
           committed ← slice_to currentPolygonCoordinates 2;
           c0 ← index currentPolygonCoordinates 0;
           mret (committed ++ [Some (lng event, lat event); c0]));
    call_store (store_updateGeometry [(id, Polygon [updatedCoordinates])]);;
    ids ← query (fun w => Some (closingPoints_ids (closingPoints w)));
    (if (length ids =? 0)%nat then mret tt
     else call_behavior (closingPoints_update updatedCoordinates));;
    mret event
  end.

(** *** onClick *)

(** The four-fold ring of the first click. *)
Definition firstRing (event : TerraDrawMouseEvent) : Ring :=
  [position event; position event; position event; position event].

(** The branches of [onClick] after the first one all require a truthy
    [this.currentId]; they are grouped here under one test of it. *)
Definition onClick (event : TerraDrawMouseEvent) : M TerraDrawMouseEvent :=
  self ← get_this;
  closestCoord ←
    match truthy (currentId self) with
    | Some id =>
        if snappingEnabled self
        then query (fun w => snapping_getSnappableCoordinate event id (store w))
        else mret None
    | None => mret None
    end;
  if (currentCoordinate self =? 0)%nat then
    let event := snap closestCoord event in
    ids ← call_store (store_create
             [ {| geometry := Polygon [firstRing event];
                  properties := [("mode", mode)] |} ]);
    modify_this (set_currentId (head ids));;
    modify_this (fun m => set_currentCoordinate (S (currentCoordinate m)) m);;
    mret event
  else
  match truthy (currentId self) with
  | None => mret event
  | Some id =>
    if (currentCoordinate self =? 1)%nat then
      let event := snap closestCoord event in
      currentPolygonCoordinates ← polygonCoordinates id;
      previousCoordinate ← index currentPolygonCoordinates 0;
      isIdentical ← query (fun _ =>
        coordinatesIdentical (lng event, lat event) previousCoordinate);
      if isIdentical : bool then mret event else
      c0 ← index currentPolygonCoordinates 0;
      c0' ← index currentPolygonCoordinates 0;
      call_store (store_updateGeometry
        [(id, Polygon [[c0; position event; position event; c0']])]);;
      modify_this (fun m => set_currentCoordinate (S (currentCoordinate m)) m);;
      mret event
    else if (currentCoordinate self =? 2)%nat then
      let event := snap closestCoord event in
      currentPolygonCoordinates ← polygonCoordinates id;
      previousCoordinate ← index currentPolygonCoordinates 1;
      isIdentical ← query (fun _ =>
        coordinatesIdentical (lng event, lat event) previousCoordinate);
      if isIdentical : bool then mret event else
      (* currentPolygonCoordinates was indexed above, so it is defined *)
      match currentPolygonCoordinates with
      | Some ring => call_behavior (closingPoints_create ring "polygon")
      | None => throw
      end;;
      c0 ← index currentPolygonCoordinates 0;
      c1 ← index currentPolygonCoordinates 1;
      c0' ← index currentPolygonCoordinates 0;
      call_store (store_updateGeometry
        [(id, Polygon [[c0; c1; position event; position event; c0']])]);;
      modify_this (fun m => set_currentCoordinate (S (currentCoordinate m)) m);;
      mret event
    else
      currentPolygonCoordinates ← polygonCoordinates id;
      flags ← query (fun w =>
        closingPoints_isClosingPoint event (closingPoints w, store w));
      if isPreviousClosing flags || isClosing flags then
        committed ← slice_to currentPolygonCoordinates 2;
        c0 ← index currentPolygonCoordinates 0;
        call_store (store_updateGeometry
          [(id, Polygon [committed ++ [c0]])]);;
        modify_this (set_currentCoordinate 0);;
        modify_this (set_currentId None);;
        call_behavior closingPoints_delete;;
        mret event
      else
        let event := snap closestCoord event in
        previousCoordinate ←
          index currentPolygonCoordinates (currentCoordinate self - 1);
        isIdentical ← query (fun _ =>
          coordinatesIdentical (lng event, lat event) previousCoordinate);
        if isIdentical : bool then mret event else
        committed ← slice_to currentPolygonCoordinates 1;
        c0 ← index currentPolygonCoordinates 0;
        let updatedPolygon :=
          createPolygon [committed ++ [position event; c0]] in
        let hasSelfIntersections :=
          if (2 <? currentCoordinate self)%nat
             && negb (allowSelfIntersections self)
          then selfIntersects updatedPolygon
          else false in
        if hasSelfIntersections then mret event (* Don't update the geometry! *)
        else
          call_store (store_updateGeometry
            [(id, geometry updatedPolygon)]);;
          modify_this (fun m => set_currentCoordinate (S (currentCoordinate m)) m);;
          mret event
  end.

(** *** cleanUp and the keyboard *)

Definition cleanUp : M unit :=
  try_catch (
    self ← get_this;
    match truthy (currentId self) with
    | Some id => call_store (store_delete [id])
    | None => mret tt
    end;;
    ids ← query (fun w => Some (closingPoints_ids (closingPoints w)));
    if (length ids =? 0)%nat then mret tt
    else call_behavior closingPoints_delete);;
  modify_this (set_currentId None);;
  modify_this (set_currentCoordinate 0).

Definition onKeyUp (event : TerraDrawKeyboardEvent) : M unit :=
  self ← get_this;
  if bool_decide (key event = cancel (keyEvents self)) then cleanUp
  else mret tt.

Definition onKeyDown : M unit := mret tt.

Definition onDragStart : M unit := setCursor "unset".

Definition onDrag : M unit := mret tt.

Definition onDragEnd : M unit := setCursor "crosshair".

End Mode.

(** ** A reference implementation of the collaborators

    The store, the closing-points behaviour, the snapping behaviour and the
    two geometric predicates are implemented here after their contracts in
    the specification, so that the handlers can be run on concrete events.
    The theorems about the mode do not depend on it. *)
Module Reference.

(** Modelled from the spec: the Feature Store, which is not among the
    sources.  [create] assigns new ownership handles, [updateGeometry] is an
    atomic per-call geometry replace by id, [delete] removes features and
    fails on a handle that was already removed, [getGeometryCopy] returns
    the geometry behind a handle. *)
Record RefStore : Type := mkRefStore {
  features : gmap Id Feature
}.

(** A handle that no stored feature has. *)
Definition newId (s : RefStore) : Id := fresh (dom (features s)).

Fixpoint create_all (fs : list Feature) (s : RefStore) : list Id * RefStore :=
  match fs with
  | [] => ([], s)
  | f :: fs' =>
      let id := newId s in
      let r := create_all fs' {| features := <[id := f]> (features s) |} in
      (id :: r.1, r.2)
  end.

(** [create(features) -> ids]: never refuses. *)
Definition ref_create (fs : list Feature) (s : RefStore)
    : Res RefStore (list Id) :=
  let r := create_all fs s in Ret r.1 r.2.

Definition known (s : RefStore) (id : Id) : bool :=
  bool_decide (is_Some (features s !! id)).

Definition patch (s : RefStore) (p : Id * Geometry) : RefStore :=
  {| features :=
       alter (fun f => {| geometry := p.2; properties := properties f |})
             p.1 (features s) |}.

(** [updateGeometry(patches)]: all patches or, when a handle is unknown,
    none and an exception. *)
Definition ref_updateGeometry (ps : list (Id * Geometry)) (s : RefStore)
    : Res RefStore unit :=
  if forallb (fun p => known s p.1) ps
  then Ret tt (foldl patch s ps)
  else Exn s.

Definition remove (s : RefStore) (id : Id) : RefStore :=
  {| features := delete id (features s) |}.

(** [delete(ids)]: throws on a handle that is not (or no longer) stored. *)
Definition ref_delete (ids : list Id) (s : RefStore) : Res RefStore unit :=
  if forallb (known s) ids
  then Ret tt (foldl remove s ids)
  else Exn s.

(** [getGeometryCopy(id)]: throws on an unknown handle. *)
Definition ref_getGeometryCopy (id : Id) (s : RefStore) : option Geometry :=
  geometry <$> features s !! id.

(** Modelled from the spec: the pixel-distance helper and the projection of
    the rendering adapter, which are not among the sources.  The reference
    map shows one degree as a hundred pixels. *)
Definition project (p : Position) : number * number :=
  (PrimFloat.mul 100%float p.1, PrimFloat.mul 100%float p.2).

Definition measure (event : TerraDrawMouseEvent) (p : Position) : number :=
  let xy := project p in
  let dx := PrimFloat.sub (containerX event) xy.1 in
  let dy := PrimFloat.sub (containerY event) xy.2 in
  PrimFloat.sqrt (PrimFloat.add (PrimFloat.mul dx dx) (PrimFloat.mul dy dy)).

Definition pointerDistance : number := 40%float.

(** Modelled from the spec: the Closing Point Detector, which is not among
    the sources.  It owns two markers: one at [ring[0]] and one at the
    vertex immediately preceding the uncommitted tail of the ring (its last
    two entries).  [create] places them, [update] repositions them,
    [delete] removes them and is safe without markers, [isClosingPoint]
    compares the pointer's pixel distance to each marker with the hit
    radius. *)
Record RefClosing : Type := mkRefClosing {
  ids : list Id
}.

(** Where the two markers of a ring go. *)
Definition markerPositions (ring : Ring) : option (Position * Position) :=
  opening ← mjoin (ring !! 0);
  previous ← mjoin (ring !! (length ring - 3));
  Some (opening, previous).

(** [create(ring, shapeKind)]: once per session; a second marker set is
    refused. *)
Definition ref_closing_create (ring : Ring) (kind : string)
    (cs : RefClosing * RefStore) : Res (RefClosing * RefStore) unit :=
  match ids cs.1, markerPositions ring with
  | [], Some (opening, previous) =>
      let props := [("mode", kind); ("closingPoint", "true")] in
      let r := create_all
                 [ {| geometry := Point opening; properties := props |};
                   {| geometry := Point previous; properties := props |} ]
                 cs.2 in
      Ret tt ({| ids := r.1 |}, r.2)
  | _, _ => Exn cs
  end.

(** [update(ring)]: needs the markers to exist. *)
Definition ref_closing_update (ring : Ring) (cs : RefClosing * RefStore)
    : Res (RefClosing * RefStore) unit :=
  match ids cs.1, markerPositions ring with
  | [m0; m1], Some (opening, previous) =>
      match ref_updateGeometry [(m0, Point opening); (m1, Point previous)] cs.2 with
      | Ret _ s => Ret tt (cs.1, s)
      | Exn s => Exn (cs.1, s)
      end
  | _, _ => Exn cs
  end.

(** [delete()]: nothing to do without markers. *)
Definition ref_closing_delete (cs : RefClosing * RefStore)
    : Res (RefClosing * RefStore) unit :=
  match ids cs.1 with
  | [] => Ret tt cs
  | ms =>
      match ref_delete ms cs.2 with
      | Ret _ s => Ret tt ({| ids := [] |}, s)
      | Exn s => Exn (cs.1, s)
      end
  end.

Definition markerAt (id : Id) (s : RefStore) : option Position :=
  match ref_getGeometryCopy id s with
  | Some (Point p) => Some p
  | _ => None
  end.

(** [isClosingPoint(event)] *)
Definition ref_isClosingPoint (event : TerraDrawMouseEvent)
    (cs : RefClosing * RefStore) : option ClosingFlags :=
  match ids cs.1 with
  | [m0; m1] =>
      opening ← markerAt m0 cs.2;
      previous ← markerAt m1 cs.2;
      Some {| isClosing :=
                PrimFloat.ltb (measure event opening) pointerDistance;
              isPreviousClosing :=
                PrimFloat.ltb (measure event previous) pointerDistance |}
  | _ => None
  end.

(** Modelled from the spec: the Snap Resolver, which is not among the
    sources.  It proposes the vertex of another stored polygon that is
    closest to the pointer, if one lies within the pixel-distance threshold;
    the feature under construction is left out.  It reads the store and
    changes nothing. *)
Definition vertices (g : Geometry) : list Position :=
  match g with
  | Polygon rings => omap (fun c : Coord => c) (concat rings)
  | Point _ => []
  end.

Definition closer (event : TerraDrawMouseEvent) (best : option Position)
    (p : Position) : option Position :=
  if PrimFloat.ltb (measure event p) pointerDistance then
    match best with
    | Some b =>
        if PrimFloat.ltb (measure event p) (measure event b)
        then Some p else best
    | None => Some p
    end
  else best.

Definition ref_getSnappableCoordinate (event : TerraDrawMouseEvent) (id : Id)
    (s : RefStore) : option (option Position) :=
  let others :=
    flat_map (fun kv : Id * Feature =>
                if bool_decide (kv.1 = id) then []
                else vertices (geometry kv.2))
             (map_to_list (features s)) in
  Some (foldl (closer event) None others).

(** Modelled from the spec: the Coordinate Equality Check, which is not
    among the sources: are two coordinates the same point within precision
    tolerance.  An undefined coordinate makes the call throw. *)
Definition tolerance : number := 0.000000001%float.

Definition ref_coordinatesIdentical (a : Position) (b : Coord) : option bool :=
  match b with
  | Some b =>
      Some (PrimFloat.leb (abs (PrimFloat.sub a.1 b.1)) tolerance
            && PrimFloat.leb (abs (PrimFloat.sub a.2 b.2)) tolerance)
  | None => None
  end.

(** Modelled from the spec: the Self-Intersection Guard, which is not among
    the sources: true if two edges of the ring cross; touching at shared
    vertices does not count. *)
Definition cross (o a b : Position) : number :=
  PrimFloat.sub
    (PrimFloat.mul (PrimFloat.sub a.1 o.1) (PrimFloat.sub b.2 o.2))
    (PrimFloat.mul (PrimFloat.sub a.2 o.2) (PrimFloat.sub b.1 o.1)).

(** The two points [a] and [b] lie strictly on opposite sides of the line
    through [p] and [q]. *)
Definition separates (p q a b : Position) : bool :=
  let da := cross p q a in
  let db := cross p q b in
  (PrimFloat.ltb 0%float da && PrimFloat.ltb db 0%float)
  || (PrimFloat.ltb da 0%float && PrimFloat.ltb 0%float db).

Definition crosses (e f : Position * Position) : bool :=
  separates e.1 e.2 f.1 f.2 && separates f.1 f.2 e.1 e.2.

Fixpoint edges (ps : list Position) : list (Position * Position) :=
  match ps with
  | p :: (q :: _) as rest => (p, q) :: edges rest
  | _ => []
  end.

Fixpoint anyCrossing (es : list (Position * Position)) : bool :=
  match es with
  | [] => false
  | e :: rest => existsb (crosses e) rest || anyCrossing rest
  end.

Definition ref_selfIntersects (f : Feature) : bool :=
  match geometry f with
  | Polygon (ring :: _) => anyCrossing (edges (omap (fun c : Coord => c) ring))
  | _ => false
  end.

(** [Math.pow] for the small non-negative whole exponents that occur here;
    NaN elsewhere. *)
Fixpoint pow_iter (fuel : nat) (base exponent : number) : number :=
  match fuel with
  | 0 => nan
  | S fuel' =>
      if PrimFloat.eqb exponent 0%float then 1%float
      else if PrimFloat.ltb exponent 0%float then nan
      else PrimFloat.mul base
             (pow_iter fuel' base (PrimFloat.sub exponent 1%float))
  end.

Definition ref_pow (base exponent : number) : number :=
  pow_iter 64 base exponent.

#[export] Instance reference : Collaborators := {|
  Store := RefStore;
  ClosingPoints := RefClosing;
  store_create := ref_create;
  store_updateGeometry := ref_updateGeometry;
  store_delete := ref_delete;
  store_getGeometryCopy := ref_getGeometryCopy;
  closingPoints_ids := ids;
  closingPoints_create := ref_closing_create;
  closingPoints_update := ref_closing_update;
  closingPoints_delete := ref_closing_delete;
  closingPoints_isClosingPoint := ref_isClosingPoint;
  snapping_getSnappableCoordinate := ref_getSnappableCoordinate;
  coordinatesIdentical := ref_coordinatesIdentical;
  selfIntersects := ref_selfIntersects;
  Math_pow := ref_pow
|}.

(** The world right after the mode was constructed and registered: an empty
    store, no markers, the default cursor. *)
Definition emptyStore : RefStore := {| features := ∅ |}.

Definition initial (m : Mode) : World :=
  {| this := m; store := emptyStore;
     closingPoints := {| ids := [] |}; cursor := "unset" |}.

(** A pointer event over the reference map, at the pixel its coordinate
    projects to. *)
Definition at_ (x y : number) : TerraDrawMouseEvent :=
  {| lng := x; lat := y;
     containerX := (project (x, y)).1; containerY := (project (x, y)).2 |}.
Arguments at_ (x y)%_float.

End Reference.

(** ** Sequences of events *)

Inductive Event : Type :=
  | Click (event : TerraDrawMouseEvent)
  | Move (event : TerraDrawMouseEvent)
  | KeyUp (event : TerraDrawKeyboardEvent)
  | KeyDown
  | DragStart
  | Drag
  | DragEnd.

Definition pointer (ev : Event) : bool :=
  match ev with
  | Click _ | Move _ => true
  | _ => false
  end.

Section Run.
Context `{Collaborators}.

Definition handle (ev : Event) : M unit :=
  match ev with
  | Click e => onClick e;; mret tt
  | Move e => onMouseMove e;; mret tt
  | KeyUp e => onKeyUp e
  | KeyDown => onKeyDown
  | DragStart => onDragStart
  | Drag => onDrag
  | DragEnd => onDragEnd
  end.

(** Events are delivered one at a time; a handler that throws leaves its
    state behind and the next event is handled from there. *)
Definition run (evs : list Event) (w : World) : World :=
  foldl (fun w ev => res_state (handle ev w)) w evs.

(** Every handler of the sequence ran to completion. *)
Fixpoint completes (evs : list Event) (w : World) : bool :=
  match evs with
  | [] => true
  | ev :: evs' =>
      returned (handle ev w) && completes evs' (res_state (handle ev w))
  end.

(** *** Notions used in the statements *)

(** The configuration fixed by the constructor. *)
Definition config (m : Mode) : bool * bool * string :=
  (allowSelfIntersections m, snappingEnabled m, cancel (keyEvents m)).

(** A computation that leaves the configuration as it found it, whether it
    returns or throws. *)
Definition keeps_config {A : Type} (m : M A) : Prop :=
  forall w, config (this (res_state (m w))) = config (this w).

Definition set_allowSelfIntersections (b : bool) (m : Mode) : Mode :=
  {| currentCoordinate := currentCoordinate m;
     currentId := currentId m;
     allowSelfIntersections := b;
     keyEvents := keyEvents m;
     snappingEnabled := snappingEnabled m;
     isClosed := isClosed m;
     coordinatePrecision := coordinatePrecision m |}.

(** The session is Idle: no feature under construction, nothing committed. *)
Definition idle (m : Mode) : Prop :=
  currentId m = None /\ currentCoordinate m = 0.

(** The session fields after a reset to Idle. *)
Definition reset (m : Mode) : Mode :=
  set_currentCoordinate 0 (set_currentId None m).

(** The answer of the Snap Resolver as a click or a move consults it:
    asked only when snapping is enabled. *)
Definition resolved (w : World) (event : TerraDrawMouseEvent) (id : Id)
    : option (option Position) :=
  if snappingEnabled (this w)
  then snapping_getSnappableCoordinate event id (store w)
  else Some None.

(** The answer of the Snap Resolver at the head of [onClick]: there it is
    asked only when a feature is under construction. *)
Definition consulted (w : World) (event : TerraDrawMouseEvent)
    : option (option Position) :=
  match truthy (currentId (this w)) with
  | Some id => resolved w event id
  | None => Some None
  end.

(** The pointer is in the closing hit-zone. *)
Definition inClosingZone (w : World) (event : TerraDrawMouseEvent) : Prop :=
  exists flags,
    closingPoints_isClosingPoint event (closingPoints w, store w) = Some flags
    /\ isPreviousClosing flags || isClosing flags = true.

Definition outsideClosingZone (w : World) (event : TerraDrawMouseEvent) : Prop :=
  exists flags,
    closingPoints_isClosingPoint event (closingPoints w, store w) = Some flags
    /\ isPreviousClosing flags || isClosing flags = false.

(** The stored ring of the polygon behind a handle. *)
Definition storedRing (w : World) (id : Id) (ring : Ring) : Prop :=
  exists rest, store_getGeometryCopy id (store w) = Some (Polygon (ring :: rest)).

(** Closed-ring shape: the first and the last coordinate are the same. *)
Definition closedRing (ring : Ring) : Prop :=
  ring <> [] /\ head ring = last ring.

(** The ring that a click in the closing hit-zone writes. *)
Definition finalRing (ring : Ring) : Ring :=
  take (length ring - 2) ring ++ [mjoin (ring !! 0)].

(** The candidate ring of a click that adds a vertex. *)
Definition candidateRing (ring : Ring) (event : TerraDrawMouseEvent) : Ring :=
  take (length ring - 1) ring ++ [position event; mjoin (ring !! 0)].

(** *** Laws of a store with closing markers

    What the closed-ring invariant needs from the collaborators: the store
    returns the geometry it was given, markers get handles of their own, and
    the closing-points behaviour touches nothing but its markers. *)
Class StoreLaws : Prop := {
  get_after_update : forall id g s s',
    store_updateGeometry [(id, g)] s = Ret tt s' ->
    store_getGeometryCopy id s' = Some g;
  get_after_create : forall f s ids s' id,
    store_create [f] s = Ret ids s' ->
    head ids = Some id ->
    store_getGeometryCopy id s' = Some (geometry f);
  markers_fresh : forall ring kind cp s cp' s' id,
    closingPoints_create ring kind (cp, s) = Ret tt (cp', s') ->
    is_Some (store_getGeometryCopy id s) ->
    id ∉ closingPoints_ids cp';
  update_frame : forall ring cp s cp' s',
    closingPoints_update ring (cp, s) = Ret tt (cp', s') ->
    closingPoints_ids cp' = closingPoints_ids cp
    /\ forall id, id ∉ closingPoints_ids cp ->
         store_getGeometryCopy id s' = store_getGeometryCopy id s;
  delete_clears : forall cp s cp' s',
    closingPoints_delete (cp, s) = Ret tt (cp', s') ->
    closingPoints_ids cp' = []
}.

(** A consistent world: the session fields, the stored ring and the markers
    fit together. *)
Record consistent (w : World) : Prop := mkConsistent {
  idle_no_id :
    currentCoordinate (this w) = 0 -> truthy (currentId (this w)) = None;
  ring_shape : forall id,
    truthy (currentId (this w)) = Some id ->
    exists ring, storedRing w id ring /\ 4 <= length ring /\ closedRing ring;
  early_no_markers :
    currentCoordinate (this w) <= 2 ->
    closingPoints_ids (closingPoints w) = [];
  id_not_marker : forall id,
    truthy (currentId (this w)) = Some id ->
    id ∉ closingPoints_ids (closingPoints w)
}.

End Run.

(** ** Concrete sessions on the reference implementation *)
Module Scenario.
Import Reference.

Definition escape : Event := KeyUp {| key := "Escape" |}.

(** Default options; three vertices committed, the pointer away from them. *)
Definition drawing : World :=
  run [Click (at_ 0 0); Move (at_ 1 1); Click (at_ 1 1);
       Move (at_ 2 0); Click (at_ 2 0); Move (at_ 1 (-1))]
      (initial (constructor None 9%float)).

(** Snapping enabled; one polygon with a vertex at (5, 5) was drawn and
    finished, and the session is Idle again. *)
Definition snappy : World :=
  run [Click (at_ 5 5); Move (at_ 6 5); Click (at_ 6 5);
       Move (at_ 6 6); Click (at_ 6 6); Move (at_ 5 5); Click (at_ 5 5)]
      (initial (constructor
                (Some {| opt_allowSelfIntersections := None;
                         opt_snapping := Some true;
                         opt_pointerDistance := None;
                         opt_keyEvents := None |}) 9%float)).

(** Self-intersections forbidden; three vertices committed, and the pointer
    moved across the first edge. *)
Definition guarded : World :=
  run [Click (at_ 0 0); Move (at_ 2 0); Click (at_ 2 0);
       Move (at_ 2 2); Click (at_ 2 2); Move (at_ 1 (-1))]
      (initial (constructor
                (Some {| opt_allowSelfIntersections := Some false;
                         opt_snapping := None;
                         opt_pointerDistance := None;
                         opt_keyEvents := None |}) 9%float)).

(** The feature under construction was removed from the store behind the
    back of the mode; its markers are still there. *)
Definition orphaned : World :=
  with_store (remove (store drawing) "0") drawing.

(** The ring stored for the polygon of [drawing]: three committed
    vertices, the pointer, and the first vertex again. *)
Definition drawingRing : Ring :=
  [Some (0, 0); Some (1, 1); Some (2, 0); Some (1, -1); Some (0, 0)]%float.

Definition guardedRing : Ring :=
  [Some (0, 0); Some (2, 0); Some (2, 2); Some (1, -1); Some (0, 0)]%float.

(** The store a call leaves behind. *)
Definition after {A : Type} (r : Res RefStore A) : RefStore := res_state r.

End Scenario.

(** ** The rest of the mode: lifecycle, styling, and further notions *)

(** The events that neither the pointer nor the cancel key is behind. *)
Definition passive (ev : Event) : bool :=
  match ev with
  | KeyDown | DragStart | Drag | DragEnd => true
  | _ => false
  end.

Section Lifecycle.
Context `{Collaborators}.

(** [start()] and [stop()].  [setStarted] and [setStopped] belong to the
    base mode, which is not among the sources; they are taken as given. *)
Definition start (setStarted : M unit) : M unit :=
  setStarted;;
  setCursor "crosshair".

Definition stop (setStopped : M unit) : M unit :=
  setStopped;;
  setCursor "unset";;
  cleanUp.

(** A computation that leaves an observation of the world as it found it,
    whether it returns or throws. *)
Definition preserves {A B : Type} (f : World -> B) (m : M A) : Prop :=
  forall w, f (res_state (m w)) = f w.

(** The session fields that say where the drawing stands. *)
Definition session (w : World) : nat * option Id :=
  (currentCoordinate (this w), currentId (this w)).

(** The length of the stored ring that goes with the number of committed
    vertices: four entries after the first click, and from then on the
    committed vertices, the preview entry and the closing entry. *)
Definition sized (w : World) : Prop :=
  forall id ring,
    truthy (currentId (this w)) = Some id ->
    storedRing w id ring ->
    length ring =
      if (currentCoordinate (this w) =? 1)%nat then 4
      else currentCoordinate (this w) + 2.

(** Deleting the markers touches nothing but the markers. *)
Class DeleteLaws : Prop := {
  delete_frame : forall cp s cp' s' id,
    closingPoints_delete (cp, s) = Ret tt (cp', s') ->
    id ∉ closingPoints_ids cp ->
    store_getGeometryCopy id s' = store_getGeometryCopy id s
}.

End Lifecycle.

(** *** styleFeature *)

Section Styling.

(** The part of [TerraDrawAdapterStyling] that the mode writes; the fields
    it only copies from the defaults are kept together in [otherStyles]. *)
Context {OtherStyles : Type}.

Record TerraDrawAdapterStyling : Type := mkStyling {
  polygonFillColor : string;
  polygonOutlineColor : string;
  polygonOutlineWidth : number;
  pointWidth : number;
  pointColor : string;
  pointOutlineColor : string;
  pointOutlineWidth : number;
  zIndex : number;
  otherStyles : OtherStyles
}.

(** [this.styles]: a [Partial<PolygonStyling>], every field optional. *)
Record Styles : Type := mkStyles {
  fillColor : option string;
  outlineColor : option string;
  outlineWidth : option number;
  fillOpacity : option number;
  closingPointWidth : option number;
  closingPointColor : option string;
  closingPointOutlineWidth : option number;
  closingPointOutlineColor : option string
}.

(** What [styleFeature] reads of a stored feature: [properties.mode] and
    [geometry.type]. *)
Record GeoJSONStoreFeatures : Type := mkStoreFeature {
  properties_mode : option string;
  geometry_type : string
}.

(** [a || b] on an optional string: [undefined] and the empty string are
    falsy. *)
Definition or_string (a : option string) (b : string) : string :=
  match a with
  | Some EmptyString => b
  | Some s => s
  | None => b
  end.

(** [a || b] on an optional number: [undefined], [0], [-0] and NaN are
    falsy. *)
Definition or_number (a : option number) (b : number) : number :=
  match a with
  | Some x => if (is_zero x || is_nan x)%bool then b else x
  | None => b
  end.

Definition set_polygonFillColor (v : string) (s : TerraDrawAdapterStyling)
    : TerraDrawAdapterStyling :=
  {| polygonFillColor := v;
     polygonOutlineColor := polygonOutlineColor s;
     polygonOutlineWidth := polygonOutlineWidth s;
     pointWidth := pointWidth s;
     pointColor := pointColor s;
     pointOutlineColor := pointOutlineColor s;
     pointOutlineWidth := pointOutlineWidth s;
     zIndex := zIndex s;
     otherStyles := otherStyles s |}.

Definition set_polygonOutlineColor (v : string) (s : TerraDrawAdapterStyling)
    : TerraDrawAdapterStyling :=
  {| polygonFillColor := polygonFillColor s;
     polygonOutlineColor := v;
     polygonOutlineWidth := polygonOutlineWidth s;
     pointWidth := pointWidth s;
     pointColor := pointColor s;
     pointOutlineColor := pointOutlineColor s;
     pointOutlineWidth := pointOutlineWidth s;
     zIndex := zIndex s;
     otherStyles := otherStyles s |}.

Definition set_polygonOutlineWidth (v : number) (s : TerraDrawAdapterStyling)
    : TerraDrawAdapterStyling :=
  {| polygonFillColor := polygonFillColor s;
     polygonOutlineColor := polygonOutlineColor s;
     polygonOutlineWidth := v;
     pointWidth := pointWidth s;
     pointColor := pointColor s;
     pointOutlineColor := pointOutlineColor s;
     pointOutlineWidth := pointOutlineWidth s;
     zIndex := zIndex s;
     otherStyles := otherStyles s |}.

Definition set_pointWidth (v : number) (s : TerraDrawAdapterStyling)
    : TerraDrawAdapterStyling :=
  {| polygonFillColor := polygonFillColor s;
     polygonOutlineColor := polygonOutlineColor s;
     polygonOutlineWidth := polygonOutlineWidth s;
     pointWidth := v;
     pointColor := pointColor s;
     pointOutlineColor := pointOutlineColor s;
     pointOutlineWidth := pointOutlineWidth s;
     zIndex := zIndex s;
     otherStyles := otherStyles s |}.

Definition set_pointColor (v : string) (s : TerraDrawAdapterStyling)
    : TerraDrawAdapterStyling :=
  {| polygonFillColor := polygonFillColor s;
     polygonOutlineColor := polygonOutlineColor s;
     polygonOutlineWidth := polygonOutlineWidth s;
     pointWidth := pointWidth s;
     pointColor := v;
     pointOutlineColor := pointOutlineColor s;
     pointOutlineWidth := pointOutlineWidth s;
     zIndex := zIndex s;
     otherStyles := otherStyles s |}.

Definition set_pointOutlineColor (v : string) (s : TerraDrawAdapterStyling)
    : TerraDrawAdapterStyling :=
  {| polygonFillColor := polygonFillColor s;
     polygonOutlineColor := polygonOutlineColor s;
     polygonOutlineWidth := polygonOutlineWidth s;
     pointWidth := pointWidth s;
     pointColor := pointColor s;
     pointOutlineColor := v;
     pointOutlineWidth := pointOutlineWidth s;
     zIndex := zIndex s;
     otherStyles := otherStyles s |}.

Definition set_pointOutlineWidth (v : number) (s : TerraDrawAdapterStyling)
    : TerraDrawAdapterStyling :=
  {| polygonFillColor := polygonFillColor s;
     polygonOutlineColor := polygonOutlineColor s;
     polygonOutlineWidth := polygonOutlineWidth s;
     pointWidth := pointWidth s;
     pointColor := pointColor s;
     pointOutlineColor := pointOutlineColor s;
     pointOutlineWidth := v;
     zIndex := zIndex s;
     otherStyles := otherStyles s |}.

Definition set_zIndex (v : number) (s : TerraDrawAdapterStyling)
    : TerraDrawAdapterStyling :=
  {| polygonFillColor := polygonFillColor s;
     polygonOutlineColor := polygonOutlineColor s;
     polygonOutlineWidth := polygonOutlineWidth s;
     pointWidth := pointWidth s;
     pointColor := pointColor s;
     pointOutlineColor := pointOutlineColor s;
     pointOutlineWidth := pointOutlineWidth s;
     zIndex := v;
     otherStyles := otherStyles s |}.

Definition styleFeature (styles : Styles) (getDefaultStyling : TerraDrawAdapterStyling)
    (feature : GeoJSONStoreFeatures) : TerraDrawAdapterStyling :=
  let s := getDefaultStyling in
  if bool_decide (properties_mode feature = Some mode) then
    if bool_decide (geometry_type feature = "Polygon") then
      let s := set_polygonFillColor
                 (or_string (fillColor styles) (polygonFillColor s)) s in
      let s := set_polygonOutlineColor
                 (or_string (outlineColor styles) (polygonOutlineColor s)) s in
      let s := set_polygonOutlineWidth
                 (or_number (outlineWidth styles) (polygonOutlineWidth s)) s in
      let s := set_polygonFillColor
                 (or_string (fillColor styles) (polygonFillColor s)) s in
      set_zIndex 10%float s
    else if bool_decide (geometry_type feature = "Point") then
      let s := set_pointWidth
                 (or_number (closingPointWidth styles) (pointWidth s)) s in
      let s := set_pointColor
                 (or_string (closingPointColor styles) (pointColor s)) s in
      let s := set_pointOutlineColor
                 (or_string (closingPointOutlineColor styles) "#ffffff") s in
      let s := set_pointOutlineWidth
                 (or_number (closingPointOutlineWidth styles) 2%float) s in
      set_zIndex 30%float s
    else s
  else s.

(** A stored feature as [styleFeature] sees it. *)
Definition property (name : string) (f : Feature) : option string :=
  snd <$> find (fun kv : string * string => bool_decide (kv.1 = name))
               (properties f).

Definition asStored (f : Feature) : GeoJSONStoreFeatures :=
  {| properties_mode := property "mode" f;
     geometry_type :=
       match geometry f with
       | Polygon _ => "Polygon"
       | Point _ => "Point"
       end |}.

End Styling.

Arguments TerraDrawAdapterStyling : clear implicits.

(** ** More concrete sessions *)
Module MoreScenario.
Import Reference Scenario.

(** One vertex committed. *)
Definition first : World :=
  run [Click (at_ 0 0)] (initial (constructor None 9%float)).

(** Two vertices committed, the pointer moved on. *)
Definition second : World :=
  run [Click (at_ 0 0); Move (at_ 1 1); Click (at_ 1 1); Move (at_ 2 0)]
      (initial (constructor None 9%float)).

Definition secondRing : Ring :=
  [Some (0, 0); Some (1, 1); Some (2, 0); Some (0, 0)]%float.

(** Snapping enabled, a finished polygon with a vertex at (5, 5) in the
    store, and the first vertex of a new polygon committed next to it. *)
Definition snappyFirst : World := run [Click (at_ 5.1 5.1)] snappy.

(** A session whose store handed out no handle: a count without an id. *)
Definition stuck : World :=
  with_this (set_currentCoordinate 1 (constructor None 9%float))
            (initial (constructor None 9%float)).

(** A default styling and a configuration of the mode's styles. *)
Definition defaultStyling : TerraDrawAdapterStyling unit :=
  {| polygonFillColor := "#3f97e0";
     polygonOutlineColor := "#3f97e0";
     polygonOutlineWidth := 4%float;
     pointWidth := 6%float;
     pointColor := "#3f97e0";
     pointOutlineColor := "#ffffff";
     pointOutlineWidth := 0%float;
     zIndex := 0%float;
     otherStyles := tt |}.

Definition someStyles : Styles :=
  {| fillColor := Some "#ff0000";
     outlineColor := Some EmptyString;
     outlineWidth := Some 0%float;
     fillOpacity := Some 0.5%float;
     closingPointWidth := None;
     closingPointColor := None;
     closingPointOutlineWidth := None;
     closingPointOutlineColor := None |}.

(** Stored features as [styleFeature] gets them: the polygon of the mode,
    one of its closing markers, and a feature of another mode. *)
Definition polygonFeature : GeoJSONStoreFeatures :=
  asStored {| geometry := Polygon [drawingRing];
              properties := [("mode", "polygon")] |}.

Definition markerFeature : GeoJSONStoreFeatures :=
  asStored {| geometry := Point (0, 0)%float;
              properties := [("mode", "polygon")] |}.

Definition foreignFeature : GeoJSONStoreFeatures :=
  asStored {| geometry := Point (0, 0)%float;
              properties := [("mode", "point")] |}.

End MoreScenario.

(** ** Properties of the mode, for every implementation of its collaborators *)

(** *** Tactics for running a handler symbolically *)

(** Unfolds the monadic plumbing of a handler applied to a world. *)
Ltac unfold_monad :=
  unfold polygonCoordinates, index, slice_to in *;
  unfold mbind, M_bind, mret, M_ret, get_this, gets, modify_this, query,
    call_store, call_behavior, setCursor, throw, try_catch in *.

(** Splits on whether snapping is enabled and brings in the answer of the
    resolver recorded in [Hres : resolved w event id = Some closest]. *)
Ltac use_resolved Hres :=
  unfold resolved in Hres; simpl in *;
  destruct (snappingEnabled (this _)) eqn:?; simpl in *;
    [rewrite Hres | injection Hres as <-]; simpl in *.

(** Rewrites with an equation about a call of a collaborator up to
    conversion of the arguments (the handler spells a ring out entry by
    entry). *)
Ltac use_call Hcall :=
  match type of Hcall with
  | ?lhs = _ =>
      match goal with
      | |- context [?t] =>
          lazymatch t with
          | store_updateGeometry _ _ => idtac
          | selfIntersects _ => idtac
          | coordinatesIdentical _ _ => idtac
          end;
          change t with lhs
      end
  end;
  rewrite Hcall; simpl.

(** Transports a goal about the outcome of a handler along an equation
    [Hrun : handler event w = outcome] and evaluates it. *)
Ltac observe Hrun :=
  match type of Hrun with
  | ?run = _ => revert Hrun; generalize run; intros ? ->
  end;
  vm_compute; reflexivity.

Section Properties.
Context `{Collaborators}.

(** *** The monad *)

Lemma bind_Ret {A B : Type} (m : M A) (f : A -> M B) (w w' : World) (a : A) :
  m w = Ret a w' -> (m ≫= f) w = f a w'.
Proof. intros Hm. unfold mbind, M_bind. by rewrite Hm. Qed.

Lemma bind_Exn {A B : Type} (m : M A) (f : A -> M B) (w w' : World) :
  m w = Exn w' -> (m ≫= f) w = Exn w'.
Proof. intros Hm. unfold mbind, M_bind. by rewrite Hm. Qed.

Lemma try_catch_returns (m : M unit) (w : World) :
  try_catch m w = Ret tt (res_state (m w)).
Proof. unfold try_catch. by destruct (m w). Qed.

(** *** Mouse moves while Idle *)

(** C9.  A mouse move delivered while the session is Idle (no current
    feature id, or nothing committed) sets the cursor to the crosshair and
    does nothing else: the store, the markers and every session field are
    as before, and the event is not touched. *)
Theorem onMouseMove_idle (event : TerraDrawMouseEvent) (w : World) :
  truthy (currentId (this w)) = None \/ currentCoordinate (this w) = 0 ->
  onMouseMove event w = Ret event (with_cursor "crosshair" w).
Proof.
  intros Hidle. unfold onMouseMove. unfold_monad. simpl.
  destruct (truthy (currentId (this w))) as [id|] eqn:Hid; [|done].
  destruct Hidle as [|Hzero]; [done|]. by rewrite Hzero.
Qed.

(** *** The first click *)

(** C7.  A click with nothing committed ([currentCoordinate = 0]) asks the
    store for one new feature whose ring is the clicked point four times;
    when the store returns, the first handle it gave is the session's
    current id and one vertex is committed.  When the store throws, the
    session is as before.  The clicked point is the pointer coordinate after
    the snap step, which in the Idle state, where no feature is under
    construction, leaves the event as it is. *)
Theorem onClick_idle (event : TerraDrawMouseEvent) (w : World)
    (closest : option Position) :
  currentCoordinate (this w) = 0 ->
  consulted w event = Some closest ->
  let clicked := snap closest event in
  (currentId (this w) = None -> clicked = event)
  /\ firstRing clicked = replicate 4 (Some (lng clicked, lat clicked))
  /\ onClick event w =
     match store_create
             [ {| geometry := Polygon [firstRing clicked];
                  properties := [("mode", mode)] |} ] (store w) with
     | Ret ids s' =>
         Ret clicked
           (with_this
              (set_currentCoordinate 1 (set_currentId (head ids) (this w)))
              (with_store s' w))
     | Exn s' => Exn (with_store s' w)
     end.
Proof.
  intros Hzero Hres clicked. subst clicked. unfold consulted in Hres.
  split; [|split; [done|]].
  - intros Hid. rewrite Hid in Hres. simpl in Hres. by injection Hres as <-.
  - unfold onClick. unfold_monad. simpl. rewrite Hzero.
    destruct (truthy (currentId (this w))) as [id|].
    + use_resolved Hres;
        (destruct (store_create _ _) as [ids s'|s']; [|done]);
        simpl; by rewrite Hzero.
    + injection Hres as <-. simpl.
      destruct (store_create _ _) as [ids s'|s']; [|done].
      simpl. by rewrite Hzero.
Qed.

(** *** cleanUp *)

Lemma cleanUp_returns (w : World) :
  exists w', cleanUp w = Ret tt w' /\ idle (this w').
Proof.
  unfold cleanUp.
  pose proof (try_catch_returns
    (self ← get_this;
     match truthy (currentId self) with
     | Some id => call_store (store_delete [id])
     | None => mret tt
     end;;
     ids ← query (fun w => Some (closingPoints_ids (closingPoints w)));
     if (length ids =? 0)%nat then mret tt
     else call_behavior closingPoints_delete) w) as Htry.
  eexists. split.
  - erewrite bind_Ret; [|exact Htry]. unfold_monad. simpl. reflexivity.
  - done.
Qed.

(** C10.  [cleanUp] returns for every outcome of the store calls, and
    leaves the session Idle ([currentId] undefined, [currentCoordinate] 0).
    When deleting the feature under construction throws, the deletion of
    the closing markers is skipped: the closing-points behaviour is as it
    was, and the store is the one the failed deletion left. *)
Theorem cleanUp_always_idle (w : World) :
  (exists w', cleanUp w = Ret tt w' /\ idle (this w'))
  /\ (forall id s',
        truthy (currentId (this w)) = Some id ->
        store_delete [id] (store w) = Exn s' ->
        exists w', cleanUp w = Ret tt w'
          /\ closingPoints w' = closingPoints w
          /\ store w' = s'
          /\ idle (this w')).
Proof.
  split; [apply cleanUp_returns|].
  intros id s' Hid Hdel.
  exists (with_this (reset (this w)) (with_store s' w)).
  split; [|done].
  unfold cleanUp. unfold_monad. simpl. by rewrite Hid, Hdel.
Qed.

(** X20.  When the store accepts the deletion, the feature under
    construction and then the closing markers are deleted, and [cleanUp]
    returns whether or not the deletion of the markers threw. *)
Lemma cleanUp_deletes_both (w : World) (id : Id) (s' : Store) :
  truthy (currentId (this w)) = Some id ->
  store_delete [id] (store w) = Ret tt s' ->
  closingPoints_ids (closingPoints w) <> [] ->
  cleanUp w =
    Ret tt
      (with_this (reset (this w))
         (with_behavior
            (res_state (closingPoints_delete (closingPoints w, s')))
            w)).
Proof.
  intros Hid Hdel Hmarkers.
  unfold cleanUp. unfold_monad. simpl. rewrite Hid, Hdel. simpl.
  destruct (closingPoints_ids (closingPoints w)); [done|]. simpl.
  by destruct (closingPoints_delete _).
Qed.

(** X19.  With the session Idle and no markers left, cancelling again
    changes nothing. *)
Lemma cleanUp_again (w : World) :
  idle (this w) ->
  closingPoints_ids (closingPoints w) = [] ->
  cleanUp w = Ret tt w.
Proof.
  intros [Hid Hzero] Hnone.
  unfold cleanUp. unfold_monad. simpl. rewrite Hid. simpl.
  rewrite Hnone. simpl.
  destruct w as [[n id allow keys snapping closed precision] s c k].
  simpl in *. by subst.
Qed.

(** *** Clicks while Drawing *)

Lemma call_behavior_this {A : Type}
    (f : ClosingPoints * Store -> Res (ClosingPoints * Store) A) (w : World) :
  this (res_state (call_behavior f w)) = this w.
Proof. unfold call_behavior. by destruct (f _). Qed.

(** C1, as the code has it.  In the Drawing state a click inside the closing
    hit-zone finalizes at once: it writes the ring with its last two entries
    collapsed into the first vertex, resets the session to Idle and then
    deletes the closing markers.  The click neither reads nor writes the
    closed flag. *)
Theorem closing_click_finalizes (event : TerraDrawMouseEvent) (w : World)
    (id : Id) (ring : Ring) (closest : option Position) (s' : Store) :
  3 <= currentCoordinate (this w) ->
  truthy (currentId (this w)) = Some id ->
  resolved w event id = Some closest ->
  storedRing w id ring ->
  inClosingZone w event ->
  store_updateGeometry [(id, Polygon [finalRing ring])] (store w) = Ret tt s' ->
  onClick event w =
    (call_behavior closingPoints_delete;; mret event)
      (with_this (set_currentId None (set_currentCoordinate 0 (this w)))
                 (with_store s' w))
  /\ idle (this (res_state (onClick event w)))
  /\ isClosed (this (res_state (onClick event w))) = isClosed (this w).
Proof.
  intros Hcount Hid Hres [rest Hring] (flags & Hflags & Hzone) Hupd.
  assert (onClick event w =
    (call_behavior closingPoints_delete;; mret event)
      (with_this (set_currentId None (set_currentCoordinate 0 (this w)))
                 (with_store s' w))) as Heq.
  { unfold onClick. unfold_monad. simpl. rewrite Hid.
    destruct (currentCoordinate (this w)) as [|[|[|n]]] eqn:Hn; [lia..|].
    use_resolved Hres; rewrite Hring; simpl; rewrite Hflags; simpl;
      rewrite Hzone; use_call Hupd; reflexivity. }
  rewrite Heq. split; [done|].
  unfold mbind, M_bind, mret, M_ret.
  pose proof (call_behavior_this closingPoints_delete
    (with_this (set_currentId None (set_currentCoordinate 0 (this w)))
               (with_store s' w))) as Hthis.
  destruct (call_behavior closingPoints_delete _); simpl in *;
    by rewrite Hthis.
Qed.

(** *** Duplicate clicks *)

(** C2, as the code has it.  With one or two vertices committed, and with
    three or more when the pointer is outside the closing hit-zone, a click
    whose coordinate (after the snap step) is identical to the immediately
    preceding committed vertex is a silent no-op: the handler returns and
    the world (session fields, store, markers, cursor) is exactly as
    before. *)
Theorem duplicate_click_is_noop (event : TerraDrawMouseEvent) (w : World)
    (id : Id) (ring : Ring) (closest : option Position) :
  1 <= currentCoordinate (this w) ->
  truthy (currentId (this w)) = Some id ->
  resolved w event id = Some closest ->
  storedRing w id ring ->
  (3 <= currentCoordinate (this w) -> outsideClosingZone w event) ->
  coordinatesIdentical
    (lng (snap closest event), lat (snap closest event))
    (mjoin (ring !! (currentCoordinate (this w) - 1))) = Some true ->
  onClick event w = Ret (snap closest event) w.
Proof.
  intros Hcount Hid Hres [rest Hring] Hzone Hsame.
  unfold onClick. unfold_monad. simpl. rewrite Hid.
  destruct (currentCoordinate (this w)) as [|[|[|n]]] eqn:Hn; [lia|..];
    simpl in Hsame.
  - use_resolved Hres; rewrite Hring; simpl; by rewrite Hsame.
  - use_resolved Hres; rewrite Hring; simpl; by rewrite Hsame.
  - destruct Hzone as (flags & Hflags & Houtside); [lia|].
    use_resolved Hres; rewrite Hring; simpl; rewrite Hflags; simpl;
      rewrite Houtside; simpl; rewrite ?Nat.sub_0_r in *; by rewrite Hsame.
Qed.

(** *** The self-intersection guard *)

(** C4.  Take a click in the Drawing state (more than two vertices
    committed), outside the closing hit-zone and not on the preceding
    vertex, whose candidate ring self-intersects.  With
    [allowSelfIntersections = false] it is rejected: the world, and so the
    count and the stored ring, is unchanged.  With
    [allowSelfIntersections = true] the same candidate ring is handed to the
    store and the count goes up by one. *)
Theorem self_intersection_guard (event : TerraDrawMouseEvent) (w : World)
    (id : Id) (ring : Ring) (closest : option Position) :
  2 < currentCoordinate (this w) ->
  truthy (currentId (this w)) = Some id ->
  resolved w event id = Some closest ->
  storedRing w id ring ->
  outsideClosingZone w event ->
  coordinatesIdentical
    (lng (snap closest event), lat (snap closest event))
    (mjoin (ring !! (currentCoordinate (this w) - 1))) = Some false ->
  selfIntersects
    (createPolygon [candidateRing ring (snap closest event)]) = true ->
  let guarded := with_this (set_allowSelfIntersections false (this w)) w in
  let free := with_this (set_allowSelfIntersections true (this w)) w in
  onClick event guarded = Ret (snap closest event) guarded
  /\ onClick event free =
     match store_updateGeometry
             [(id, Polygon [candidateRing ring (snap closest event)])]
             (store w) with
     | Ret _ s' =>
         Ret (snap closest event)
           (with_this
              (set_currentCoordinate (S (currentCoordinate (this w))) (this free))
              (with_store s' free))
     | Exn s' => Exn (with_store s' free)
     end.
Proof.
  intros Hcount Hid Hres [rest Hring] (flags & Hflags & Houtside) Hsame Hcross.
  destruct (currentCoordinate (this w)) as [|[|[|n]]] eqn:Hn; [lia..|].
  simpl in Hsame. rewrite ?Nat.sub_0_r in Hsame.
  unfold candidateRing in *. cbv zeta.
  split.
  - unfold onClick. unfold_monad. simpl. rewrite Hid, Hn.
    use_resolved Hres; rewrite Hring; simpl; rewrite Hflags; simpl;
      rewrite Houtside; simpl; rewrite ?Nat.sub_0_r in *; rewrite Hsame; simpl;
      by use_call Hcross.
  - unfold onClick. unfold_monad. simpl. rewrite Hid, Hn.
    use_resolved Hres; rewrite Hring; simpl; rewrite Hflags; simpl;
      rewrite Houtside; simpl; rewrite ?Nat.sub_0_r in *; rewrite Hsame; simpl;
      destruct (store_updateGeometry _ _); simpl; by rewrite ?Hn.
Qed.

(** *** The snap step *)

(** C3 at the first click: in the Idle state the Snap Resolver is not
    asked, whatever the snapping option is, and the ring is built from the
    raw pointer coordinate. *)
Theorem first_click_not_snapped (event : TerraDrawMouseEvent) (w : World) :
  idle (this w) ->
  snappingEnabled (this w) = true ->
  onClick event w =
    match store_create
            [ {| geometry := Polygon [replicate 4 (Some (lng event, lat event))];
                 properties := [("mode", mode)] |} ] (store w) with
    | Ret ids s' =>
        Ret event
          (with_this
             (set_currentCoordinate 1 (set_currentId (head ids) (this w)))
             (with_store s' w))
    | Exn s' => Exn (with_store s' w)
    end.
Proof.
  intros [Hid Hzero] _.
  unfold onClick. unfold_monad. simpl. rewrite Hid, Hzero. simpl.
  change (firstRing event) with (replicate 4 (Some (lng event, lat event))).
  destruct (store_create _ _) as [ids s'|s']; [|done].
  simpl. by rewrite Hzero.
Qed.

(** X18.  On the later transitions the replacement coordinate is in place
    before the identity check: a click in the First state compares the
    snapped coordinate with vertex 0 and writes the snapped coordinate. *)
Lemma second_click_snapped (event : TerraDrawMouseEvent) (w : World)
    (id : Id) (ring : Ring) (closest : option Position) :
  currentCoordinate (this w) = 1 ->
  truthy (currentId (this w)) = Some id ->
  resolved w event id = Some closest ->
  storedRing w id ring ->
  coordinatesIdentical
    (lng (snap closest event), lat (snap closest event))
    (mjoin (ring !! 0)) = Some false ->
  onClick event w =
    match store_updateGeometry
            [(id, Polygon [[mjoin (ring !! 0);
                            position (snap closest event);
                            position (snap closest event);
                            mjoin (ring !! 0)]])] (store w) with
    | Ret _ s' =>
        Ret (snap closest event)
          (with_this (set_currentCoordinate 2 (this w)) (with_store s' w))
    | Exn s' => Exn (with_store s' w)
    end.
Proof.
  intros Hn Hid Hres [rest Hring] Hsame.
  unfold onClick. unfold_monad. simpl. rewrite Hid, Hn.
  use_resolved Hres; rewrite Hring; simpl; rewrite Hsame; simpl;
    destruct (store_updateGeometry _ _); simpl; by rewrite ?Hn.
Qed.

(** *** The configuration is fixed *)

Lemma keeps_ret {A : Type} (a : A) : keeps_config (mret a).
Proof. by intros w. Qed.

Lemma keeps_throw {A : Type} : keeps_config (@throw _ A).
Proof. by intros w. Qed.

Lemma keeps_bind {A B : Type} (m : M A) (f : A -> M B) :
  keeps_config m -> (forall a, keeps_config (f a)) -> keeps_config (m ≫= f).
Proof.
  intros Hm Hf w. specialize (Hm w). unfold mbind, M_bind.
  destruct (m w) as [a w'|w']; simpl in *; [|done].
  by rewrite Hf.
Qed.

Lemma keeps_get_this : keeps_config get_this.
Proof. by intros w. Qed.

Lemma keeps_gets {A : Type} (f : Mode -> A) : keeps_config (gets f).
Proof. by intros w. Qed.

Lemma keeps_query {A : Type} (f : World -> option A) : keeps_config (query f).
Proof. intros w. unfold query. by destruct (f w). Qed.

Lemma keeps_call_store {A : Type} (f : Store -> Res Store A) :
  keeps_config (call_store f).
Proof. intros w. unfold call_store. by destruct (f _). Qed.

Lemma keeps_call_behavior {A : Type}
    (f : ClosingPoints * Store -> Res (ClosingPoints * Store) A) :
  keeps_config (call_behavior f).
Proof. intros w. unfold call_behavior. by destruct (f _). Qed.

Lemma keeps_setCursor (c : string) : keeps_config (setCursor c).
Proof. by intros w. Qed.

Lemma keeps_modify (f : Mode -> Mode) :
  (forall m, config (f m) = config m) -> keeps_config (modify_this f).
Proof. intros Hf w. simpl. apply Hf. Qed.

Lemma keeps_try_catch (m : M unit) : keeps_config m -> keeps_config (try_catch m).
Proof. intros Hm w. rewrite try_catch_returns. apply Hm. Qed.

Create HintDb frame discriminated.
#[local] Hint Resolve keeps_ret keeps_throw keeps_get_this keeps_gets
  keeps_query keeps_call_store keeps_call_behavior keeps_setCursor
  keeps_try_catch : frame.

(** Walks through a handler: one rule per construct. *)
Ltac frame :=
  repeat first
    [ apply keeps_bind; [|intros ?]
    | apply keeps_try_catch
    | apply keeps_modify; by intros []
    | solve [auto with frame]
    | match goal with
      | |- keeps_config (match ?x with _ => _ end) => destruct x
      | |- keeps_config (let _ := _ in _) => cbv zeta
      end ].

Lemma keeps_index (a : option Ring) (i : nat) : keeps_config (index a i).
Proof. unfold index. frame. Qed.

Lemma keeps_slice_to (a : option Ring) (k : nat) : keeps_config (slice_to a k).
Proof. unfold slice_to. frame. Qed.

Lemma keeps_polygonCoordinates (id : Id) : keeps_config (polygonCoordinates id).
Proof. unfold polygonCoordinates. frame. Qed.

#[local] Hint Resolve keeps_index keeps_slice_to keeps_polygonCoordinates
  : frame.

Lemma keeps_cleanUp : keeps_config cleanUp.
Proof. unfold cleanUp. frame. Qed.

Lemma keeps_onMouseMove (event : TerraDrawMouseEvent) :
  keeps_config (onMouseMove event).
Proof. unfold onMouseMove. frame. Qed.

Lemma keeps_onClick (event : TerraDrawMouseEvent) :
  keeps_config (onClick event).
Proof. unfold onClick. frame. Qed.

Lemma keeps_handle (ev : Event) : keeps_config (handle ev).
Proof.
  destruct ev; unfold handle, onKeyUp, onKeyDown, onDragStart, onDrag,
    onDragEnd; frame;
    auto using keeps_onClick, keeps_onMouseMove, keeps_cleanUp.
Qed.

(** C8.  Constructed without options, or with the corresponding option
    omitted, the mode has [allowSelfIntersections = true] (the guard is
    off), [snapping = false] and the cancel key "Escape"; no handler,
    however it ends, and so no sequence of events, changes these three
    values. *)
Theorem default_configuration :
  (forall precision,
     config (constructor None precision) = (true, false, "Escape"))
  /\ (forall snapping distance keys precision,
        allowSelfIntersections
          (constructor (Some (mkOptions None snapping distance keys)) precision)
        = true)
  /\ (forall allow distance keys precision,
        snappingEnabled
          (constructor (Some (mkOptions allow None distance keys)) precision)
        = false)
  /\ (forall allow snapping distance precision,
        cancel (keyEvents
          (constructor (Some (mkOptions allow snapping distance None)) precision))
        = "Escape")
  /\ (forall evs w, config (this (run evs w)) = config (this w)).
Proof.
  repeat split; try done.
  intros evs. induction evs as [|ev evs IH]; intros w; [done|].
  simpl. rewrite IH. apply keeps_handle.
Qed.

End Properties.

(** ** The closed-ring invariant *)

Section ClosedRing.
Context `{Collaborators} `{!StoreLaws}.

Lemma truthy_Some (o : option Id) (id : Id) : truthy o = Some id -> o = Some id.
Proof. destruct o as [[|a s]|]; simpl; congruence. Qed.

Lemma closedRing_4 (c a b : Coord) : closedRing [c; a; b; c].
Proof. by split. Qed.

Lemma closedRing_5 (c a b d : Coord) : closedRing [c; a; b; d; c].
Proof. by split. Qed.

(** Replacing the tail of a ring by entries that end in its first vertex
    keeps the ring closed. *)
Lemma closedRing_tail (ring : Ring) (k : nat) (x : Coord) :
  k < length ring ->
  closedRing (take (length ring - k) ring ++ [x; mjoin (ring !! 0)]).
Proof.
  intros Hk. destruct ring as [|c ring]; [simpl in Hk; lia|].
  split.
  - by destruct (take _ _).
  - cbn [length] in *.
    replace (S (length ring) - k) with (S (length ring - k)) by lia.
    simpl. rewrite app_comm_cons.
    change [x; c] with ([x] ++ [c]). by rewrite app_assoc, last_snoc.
Qed.

Lemma length_tail (ring : Ring) (k : nat) (x y : Coord) :
  length (take (length ring - k) ring ++ [x; y]) = length ring - k + 2.
Proof. rewrite length_app, length_take. simpl. lia. Qed.

(** Two ways to be consistent after a handler. *)
Lemma consistent_drawing (w : World) (id : Id) (ring : Ring) :
  truthy (currentId (this w)) = Some id ->
  currentCoordinate (this w) <> 0 ->
  storedRing w id ring ->
  4 <= length ring ->
  closedRing ring ->
  (currentCoordinate (this w) <= 2 -> closingPoints_ids (closingPoints w) = []) ->
  id ∉ closingPoints_ids (closingPoints w) ->
  consistent w.
Proof.
  intros Hid Hn Hring Hlen Hclosed Hearly Hmarker.
  split; [done| |done|].
  - intros id' Hid'. assert (id' = id) as -> by congruence. eauto.
  - intros id' Hid'. by assert (id' = id) as -> by congruence.
Qed.

Lemma consistent_no_session (w : World) :
  truthy (currentId (this w)) = None ->
  closingPoints_ids (closingPoints w) = [] ->
  consistent w.
Proof. intros Hid Hnone. split; try done; intros id; by rewrite Hid. Qed.

(** A handler that changed neither the session fields nor the store nor
    the markers. *)
Lemma consistent_same (w w' : World) :
  consistent w ->
  currentCoordinate (this w') = currentCoordinate (this w) ->
  currentId (this w') = currentId (this w) ->
  store w' = store w ->
  closingPoints w' = closingPoints w ->
  consistent w'.
Proof.
  intros [H1 H2 H3 H4] Hn Hid Hs Hc.
  split; unfold storedRing in *; rewrite ?Hn, ?Hid, ?Hs, ?Hc; done.
Qed.

(** Splits a handler that returned into its branches. *)
Ltac branches :=
  repeat (case_match; simplify_eq/=);
  repeat match goal with
         | u : unit |- _ => destruct u
         | cs : (ClosingPoints * Store)%type |- _ => destruct cs; simpl in *
         end.

(** Closes a branch of a handler in which the ring [ring'] was written
    behind the handle [id]. *)
Ltac written id :=
  try match goal with
      | Hupd : closingPoints_update _ _ = Ret _ _ |- _ =>
          destruct (update_frame _ _ _ _ _ Hupd)
      end;
  eapply (consistent_drawing _ id);
    [ simpl; eassumption
    | simpl; lia
    | eexists; simpl;
      try match goal with
          | Hframe : forall id, _ -> store_getGeometryCopy id _ = _ |- _ =>
              rewrite Hframe by assumption
          end;
      eapply get_after_update; eassumption
    | simpl; rewrite ?length_tail; lia
    | first [apply closedRing_4 | apply closedRing_5
            | apply closedRing_tail; lia]
    | simpl; intros;
      try match goal with
          | Hids : closingPoints_ids ?c = _ |- closingPoints_ids ?c = [] =>
              rewrite Hids
          end;
      first [lia | auto with lia]
    | simpl;
      first [ assumption
            | congruence
            | eapply markers_fresh; [eassumption | by eexists] ] ].

Lemma onClick_consistent (event event' : TerraDrawMouseEvent) (w w' : World) :
  consistent w ->
  onClick event w = Ret event' w' ->
  consistent w'.
Proof.
  intros Hw Hrun. unfold onClick in Hrun. unfold_monad. simpl in Hrun.
  destruct (truthy (currentId (this w))) as [id|] eqn:Hid.
  - destruct (ring_shape w Hw id Hid) as (ring & [rest Hring] & Hlen & Hclosed).
    pose proof (id_not_marker w Hw id Hid) as Hmarker.
    pose proof (idle_no_id w Hw) as Hidle.
    pose proof (early_no_markers w Hw) as Hearly.
    destruct (currentCoordinate (this w)) as [|[|[|n]]] eqn:Hn.
    + rewrite Hidle in Hid; done.
    + branches; try done; written id.
    + branches; try done; written id.
    + branches; try done;
        first [ written id
              | apply consistent_no_session;
                  [done | simpl; eapply delete_clears; eassumption] ].
  - branches; try done.
    apply Nat.eqb_eq in H1.
    pose proof (early_no_markers w Hw) as Hearly.
    destruct (truthy (head a)) as [id|] eqn:Hnew.
    + assert (closingPoints_ids (closingPoints w) = []) as Hnone
        by (apply Hearly; lia).
      eapply (consistent_drawing _ id (firstRing event')); simpl;
        rewrite ?Hnone; try done.
      * eexists. simpl.
        eapply (get_after_create (mkFeature _ _)); [eassumption|].
        by apply truthy_Some.
      * apply not_elem_of_nil.
    + apply consistent_no_session; [done|]. simpl. apply Hearly. lia.
Qed.

Lemma onMouseMove_consistent (event event' : TerraDrawMouseEvent)
    (w w' : World) :
  consistent w ->
  onMouseMove event w = Ret event' w' ->
  consistent w'.
Proof.
  intros Hw Hrun. unfold onMouseMove in Hrun. unfold_monad. simpl in Hrun.
  destruct (truthy (currentId (this w))) as [id|] eqn:Hid.
  - destruct (ring_shape w Hw id Hid) as (ring & [rest Hring] & Hlen & Hclosed).
    pose proof (id_not_marker w Hw id Hid) as Hmarker.
    pose proof (idle_no_id w Hw) as Hidle.
    pose proof (early_no_markers w Hw) as Hearly.
    destruct (currentCoordinate (this w)) as [|[|[|n]]] eqn:Hn.
    + rewrite Hidle in Hid; done.
    + branches; written id.
    + branches; written id.
    + branches; written id.
  - simplify_eq. by eapply consistent_same.
Qed.

Lemma handle_consistent (ev : Event) (w : World) :
  pointer ev = true ->
  returned (handle ev w) = true ->
  consistent w ->
  consistent (res_state (handle ev w)).
Proof.
  intros Hpointer Hreturned Hw.
  destruct ev as [e|e| | | | |]; try done; simpl in *.
  - unfold mbind, M_bind, mret, M_ret in *.
    destruct (onClick e w) as [e' w'|w'] eqn:Hrun; [|done].
    eauto using onClick_consistent.
  - unfold mbind, M_bind, mret, M_ret in *.
    destruct (onMouseMove e w) as [e' w'|w'] eqn:Hrun; [|done].
    eauto using onMouseMove_consistent.
Qed.

Lemma run_consistent (evs : list Event) (w : World) :
  forallb pointer evs = true ->
  completes evs w = true ->
  consistent w ->
  consistent (run evs w).
Proof.
  revert w. induction evs as [|ev evs IH]; intros w Hpointer Hdone Hw; [done|].
  simpl in *.
  apply andb_true_iff in Hpointer as [Hev Hevs].
  apply andb_true_iff in Hdone as [Hret Hrest].
  apply IH; [done..|]. by apply handle_consistent.
Qed.

(** A mode that was just constructed, with fresh behaviours, is
    consistent, whatever the store holds. *)
Lemma constructed_consistent (options : option Options) (precision : number)
    (w : World) :
  this w = constructor options precision ->
  closingPoints_ids (closingPoints w) = [] ->
  consistent w.
Proof.
  intros Hthis Hnone. apply consistent_no_session; [|done]. by rewrite Hthis.
Qed.

(** C6.  Start from a consistent world (a freshly constructed mode is one)
    and deliver any sequence of clicks and mouse moves whose handlers run to
    completion.  Afterwards, if a polygon is in progress, the store holds a
    ring for it whose first and last coordinates are the same.  The
    sequence is arbitrary, so this holds after every click and every move of
    a session, not only at its end. *)
Theorem ring_closed_throughout (evs : list Event) (w : World) (id : Id) :
  consistent w ->
  forallb pointer evs = true ->
  completes evs w = true ->
  truthy (currentId (this (run evs w))) = Some id ->
  exists ring,
    storedRing (run evs w) id ring
    /\ head ring = last ring
    /\ ring <> [].
Proof.
  intros Hw Hpointer Hdone Hid.
  destruct (ring_shape _ (run_consistent evs w Hpointer Hdone Hw) id Hid)
    as (ring & Hring & _ & Hnonempty & Hclosed).
  eauto.
Qed.

End ClosedRing.

(** ** The reference implementation obeys the laws *)

Section ReferenceLaws.
Import Reference.

Lemma known_lookup (s : RefStore) (id : Id) :
  known s id = true -> exists f, features s !! id = Some f.
Proof. unfold known. intros Hk. by apply bool_decide_eq_true in Hk as [f Hf]; eauto. Qed.

Lemma newId_fresh (s : RefStore) : features s !! newId s = None.
Proof.
  apply not_elem_of_dom. unfold newId. apply is_fresh.
Qed.

Lemma ref_get_after_update (id : Id) (g : Geometry) (s s' : RefStore) :
  ref_updateGeometry [(id, g)] s = Ret tt s' ->
  ref_getGeometryCopy id s' = Some g.
Proof.
  unfold ref_updateGeometry. simpl. rewrite andb_true_r.
  destruct (known s id) eqn:Hk; [|done].
  intros [= <-]. apply known_lookup in Hk as [f Hf].
  unfold ref_getGeometryCopy, patch. simpl.
  by rewrite lookup_alter_eq, Hf.
Qed.

Lemma ref_get_after_create (f : Feature) (s : RefStore) (ids : list Id)
    (s' : RefStore) (id : Id) :
  ref_create [f] s = Ret ids s' ->
  head ids = Some id ->
  ref_getGeometryCopy id s' = Some (geometry f).
Proof.
  unfold ref_create. simpl. intros [= <- <-] [= <-].
  unfold ref_getGeometryCopy. simpl. by rewrite lookup_insert_eq.
Qed.

Lemma ref_markers_fresh (ring : Ring) (kind : string) (cp : RefClosing)
    (s : RefStore) (cp' : RefClosing) (s' : RefStore) (id : Id) :
  ref_closing_create ring kind (cp, s) = Ret tt (cp', s') ->
  is_Some (ref_getGeometryCopy id s) ->
  id ∉ ids cp'.
Proof.
  unfold ref_closing_create. simpl.
  destruct (ids cp); [|done].
  destruct (markerPositions ring) as [[opening previous]|]; [|done].
  simpl. intros [= <- <-] [g Hg]. simpl.
  unfold ref_getGeometryCopy in Hg.
  destruct (features s !! id) as [f|] eqn:Hf; [|done].
  rewrite !not_elem_of_cons. split_and!; [| |apply not_elem_of_nil].
  - intros ->. by rewrite newId_fresh in Hf.
  - intros ->.
    pose proof (newId_fresh
      {| features :=
           <[newId s := {| geometry := Point opening;
                           properties := [("mode", kind); ("closingPoint", "true")] |}]>
             (features s) |}) as Hfresh.
    simpl in Hfresh.
    apply lookup_insert_None in Hfresh as [Hfresh _]. by rewrite Hfresh in Hf.
Qed.

Lemma ref_update_frame (ring : Ring) (cp : RefClosing) (s : RefStore)
    (cp' : RefClosing) (s' : RefStore) :
  ref_closing_update ring (cp, s) = Ret tt (cp', s') ->
  ids cp' = ids cp
  /\ forall id, id ∉ ids cp ->
       ref_getGeometryCopy id s' = ref_getGeometryCopy id s.
Proof.
  unfold ref_closing_update. simpl.
  destruct (ids cp) as [|m0 [|m1 [|]]] eqn:Hids; try done.
  destruct (markerPositions ring) as [[opening previous]|]; [|done].
  unfold ref_updateGeometry.
  destruct (forallb _ _); [|done].
  intros [= <- <-]. split; [done|].
  intros id. rewrite !not_elem_of_cons. intros (Hm0 & Hm1 & _).
  unfold ref_getGeometryCopy, patch. simpl.
  by rewrite !lookup_alter_ne.
Qed.

Lemma ref_delete_clears (cp : RefClosing) (s : RefStore) (cp' : RefClosing)
    (s' : RefStore) :
  ref_closing_delete (cp, s) = Ret tt (cp', s') ->
  ids cp' = [].
Proof.
  unfold ref_closing_delete. simpl.
  destruct (ids cp) eqn:Hids; [by intros [= <- <-]|].
  destruct (ref_delete _ _); [|done]. by intros [= <- <-].
Qed.

#[export] Instance reference_laws : StoreLaws (H := reference).
Proof.
  split.
  - exact ref_get_after_update.
  - exact ref_get_after_create.
  - exact ref_markers_fresh.
  - exact ref_update_frame.
  - exact ref_delete_clears.
Qed.

End ReferenceLaws.

(** ** The mode on concrete sessions *)

Section Sessions.
Import Reference Scenario.

(** C1 as stated fails: [drawing] is a Drawing-state session (three
    vertices committed), the pointer at (0.1, 0.1) is in the closing
    hit-zone of the first vertex, and this one click alone resets
    [currentCoordinate] to 0 and drops the current id. *)
Lemma one_closing_click_resets :
  currentCoordinate (this drawing) = 3
  /\ closingPoints_isClosingPoint (at_ 0.1 0.1)
       (closingPoints drawing, store drawing)
     = Some {| isClosing := true; isPreviousClosing := false |}
  /\ currentCoordinate (this (res_state (onClick (at_ 0.1 0.1) drawing))) = 0
  /\ currentId (this (res_state (onClick (at_ 0.1 0.1) drawing))) = None.
Proof. repeat split; vm_compute; reflexivity. Qed.

Lemma closing_click_finalizes_at_drawing :
  idle (this (res_state (onClick (at_ 0.1 0.1) drawing))).
Proof.
  refine (proj1 (proj2
    (closing_click_finalizes (at_ 0.1 0.1) drawing "0" drawingRing None
       (after (ref_updateGeometry
                 [("0", Polygon [finalRing drawingRing])] (store drawing)))
       _ _ _ _ _ _))).
  - vm_compute. lia.
  - vm_compute. reflexivity.
  - vm_compute. reflexivity.
  - exists []. vm_compute. reflexivity.
  - exists {| isClosing := true; isPreviousClosing := false |}.
    split; vm_compute; reflexivity.
  - vm_compute. reflexivity.
Defined.

(** C2 as stated fails in the Drawing state: (2, 0) is the immediately
    preceding committed vertex of [drawing] and the click is on it, yet the
    click is in the closing hit-zone of that vertex and finalizes the
    polygon: the count goes from 3 to 0 and the stored ring loses an
    entry. *)
Lemma duplicate_click_in_zone_finalizes :
  currentCoordinate (this drawing) = 3
  /\ store_getGeometryCopy "0" (store drawing) = Some (Polygon [drawingRing])
  /\ coordinatesIdentical (lng (at_ 2 0), lat (at_ 2 0))
       (mjoin (drawingRing !! (3 - 1))) = Some true
  /\ currentCoordinate (this (res_state (onClick (at_ 2 0) drawing))) = 0
  /\ store_getGeometryCopy "0" (store (res_state (onClick (at_ 2 0) drawing)))
     = Some (Polygon [[Some (0, 0); Some (1, 1); Some (2, 0); Some (0, 0)]%float]).
Proof. repeat split; vm_compute; reflexivity. Qed.

Lemma duplicate_click_is_noop_at_first :
  onClick (at_ 0 0) (run [Click (at_ 0 0)] (initial (constructor None 9%float)))
  = Ret (at_ 0 0) (run [Click (at_ 0 0)] (initial (constructor None 9%float))).
Proof.
  refine (duplicate_click_is_noop (at_ 0 0)
            (run [Click (at_ 0 0)] (initial (constructor None 9%float)))
            "0" (firstRing (at_ 0 0)) None _ _ _ _ _ _).
  - vm_compute. lia.
  - vm_compute. reflexivity.
  - vm_compute. reflexivity.
  - exists []. vm_compute. reflexivity.
  - vm_compute. lia.
  - vm_compute. reflexivity.
Defined.

(** C3 fails at the first click.  In [snappy] snapping is enabled and the
    session is Idle; the Snap Resolver, asked about the pointer at
    (5.1, 5.1), proposes the stored vertex (5, 5); the click nevertheless
    creates the ring at the raw coordinate, and only the next click is
    snapped. *)
Lemma first_click_not_snapped_at_snappy :
  snappingEnabled (this snappy) = true
  /\ snapping_getSnappableCoordinate (at_ 5.1 5.1) "1" (store snappy)
     = Some (Some (5, 5)%float)
  /\ currentId (this (res_state (onClick (at_ 5.1 5.1) snappy))) = Some "1"
  /\ store_getGeometryCopy "1" (store (res_state (onClick (at_ 5.1 5.1) snappy)))
     = Some (Polygon [replicate 4 (Some (5.1, 5.1)%float)]).
Proof.
  assert (idle (this snappy)) as Hidle by (split; vm_compute; reflexivity).
  assert (snappingEnabled (this snappy) = true) as Hsnapping
    by (vm_compute; reflexivity).
  pose proof (first_click_not_snapped (at_ 5.1 5.1) snappy Hidle Hsnapping)
    as Hclick.
  split; [exact Hsnapping|]. split; [vm_compute; reflexivity|].
  split; observe Hclick.
Defined.

Lemma self_intersection_guard_at_guarded :
  onClick (at_ 1 (-1))
    (with_this (set_allowSelfIntersections false (this guarded)) guarded)
  = Ret (at_ 1 (-1))
      (with_this (set_allowSelfIntersections false (this guarded)) guarded)
  /\ allowSelfIntersections (this guarded) = false
  /\ currentCoordinate (this guarded) = 3
  /\ currentCoordinate (this (res_state (onClick (at_ 1 (-1))
       (with_this (set_allowSelfIntersections true (this guarded)) guarded))))
     = 4
  /\ store_getGeometryCopy "0" (store (res_state (onClick (at_ 1 (-1))
       (with_this (set_allowSelfIntersections true (this guarded)) guarded))))
     = Some (Polygon [candidateRing guardedRing (at_ 1 (-1))]).
Proof.
  destruct (self_intersection_guard (at_ 1 (-1)) guarded "0" guardedRing None)
    as [Hrejected Haccepted].
  - vm_compute. lia.
  - vm_compute. reflexivity.
  - vm_compute. reflexivity.
  - exists []. vm_compute. reflexivity.
  - exists {| isClosing := false; isPreviousClosing := false |}.
    split; vm_compute; reflexivity.
  - vm_compute. reflexivity.
  - vm_compute. reflexivity.
  - split; [exact Hrejected|].
    split; [vm_compute; reflexivity|]. split; [vm_compute; reflexivity|].
    split; observe Haccepted.
Defined.

(** C5 fails when the store refuses the deletion.  In [orphaned] the
    feature under construction is gone from the store, so deleting it
    throws; the cancel key then resets the session but leaves both closing
    markers in the store and in the behaviour.  A second cancel removes
    them, so cancelling twice is not the same as cancelling once. *)
Lemma cancel_leaves_markers :
  currentCoordinate (this orphaned) = 3
  /\ store_delete ["0"] (store orphaned) = Exn (store orphaned)
  /\ this (run [escape] orphaned) = reset (this orphaned)
  /\ closingPoints_ids (closingPoints (run [escape] orphaned)) = ["1"; "2"]
  /\ store_getGeometryCopy "1" (store (run [escape] orphaned))
     = Some (Point (0, 0)%float)
  /\ store_getGeometryCopy "2" (store (run [escape] orphaned))
     = Some (Point (2, 0)%float)
  /\ closingPoints_ids (closingPoints (run [escape; escape] orphaned)) = []
  /\ store_getGeometryCopy "1" (store (run [escape; escape] orphaned)) = None.
Proof. repeat split; vm_compute; reflexivity. Qed.

Lemma ring_closed_throughout_at_drawing :
  exists ring,
    storedRing drawing "0" ring /\ head ring = last ring /\ ring <> [].
Proof.
  apply (ring_closed_throughout
           [Click (at_ 0 0); Move (at_ 1 1); Click (at_ 1 1);
            Move (at_ 2 0); Click (at_ 2 0); Move (at_ 1 (-1))]
           (initial (constructor None 9%float)) "0").
  - by apply (constructed_consistent None 9%float).
  - reflexivity.
  - vm_compute. reflexivity.
  - vm_compute. reflexivity.
Defined.

Lemma onClick_idle_at_initial :
  currentCoordinate
    (this (res_state (onClick (at_ 0 0) (initial (constructor None 9%float)))))
  = 1
  /\ currentId
       (this (res_state (onClick (at_ 0 0) (initial (constructor None 9%float)))))
     = Some "0"
  /\ store_getGeometryCopy "0"
       (store (res_state (onClick (at_ 0 0) (initial (constructor None 9%float)))))
     = Some (Polygon [replicate 4 (Some (0, 0)%float)]).
Proof.
  destruct (onClick_idle (at_ 0 0) (initial (constructor None 9%float)) None)
    as (_ & _ & Hclick); [reflexivity..|].
  repeat split; observe Hclick.
Defined.

Lemma onMouseMove_idle_at_initial :
  onMouseMove (at_ 1 1) (initial (constructor None 9%float))
  = Ret (at_ 1 1) (with_cursor "crosshair" (initial (constructor None 9%float))).
Proof. apply onMouseMove_idle. right. reflexivity. Defined.

Lemma cleanUp_always_idle_at_orphaned :
  exists w',
    cleanUp orphaned = Ret tt w'
    /\ closingPoints w' = closingPoints orphaned
    /\ store w' = store orphaned
    /\ idle (this w').
Proof.
  apply (proj2 (cleanUp_always_idle orphaned) "0" (store orphaned)).
  - vm_compute. reflexivity.
  - vm_compute. reflexivity.
Defined.

End Sessions.

(** ** Further properties of the handlers *)

Section Frames.
Context `{Collaborators}.

(** *** What a handler leaves alone *)

Lemma preserves_ret {A B : Type} (f : World -> B) (a : A) :
  preserves f (mret a).
Proof. by intros w. Qed.

Lemma preserves_throw {A B : Type} (f : World -> B) :
  preserves f (@throw _ A).
Proof. by intros w. Qed.

Lemma preserves_bind {A A' B : Type} (f : World -> B) (m : M A)
    (k : A -> M A') :
  preserves f m -> (forall a, preserves f (k a)) -> preserves f (m ≫= k).
Proof.
  intros Hm Hk w. specialize (Hm w). unfold mbind, M_bind.
  destruct (m w) as [a w'|w']; simpl in *; [|done].
  by rewrite Hk.
Qed.

Lemma preserves_get_this {B : Type} (f : World -> B) : preserves f get_this.
Proof. by intros w. Qed.

Lemma preserves_gets {A B : Type} (f : World -> B) (g : Mode -> A) :
  preserves f (gets g).
Proof. by intros w. Qed.

Lemma preserves_query {A B : Type} (f : World -> B) (q : World -> option A) :
  preserves f (query q).
Proof. intros w. unfold query. by destruct (q w). Qed.

Lemma preserves_call_store {A B : Type} (f : World -> B)
    (g : Store -> Res Store A) :
  (forall s w, f (with_store s w) = f w) -> preserves f (call_store g).
Proof. intros Hf w. unfold call_store. by destruct (g _); simpl. Qed.

Lemma preserves_call_behavior {A B : Type} (f : World -> B)
    (g : ClosingPoints * Store -> Res (ClosingPoints * Store) A) :
  (forall cs w, f (with_behavior cs w) = f w) -> preserves f (call_behavior g).
Proof. intros Hf w. unfold call_behavior. by destruct (g _); simpl. Qed.

Lemma preserves_setCursor {B : Type} (f : World -> B) (c : string) :
  (forall c w, f (with_cursor c w) = f w) -> preserves f (setCursor c).
Proof. intros Hf w. apply Hf. Qed.

Lemma preserves_modify {B : Type} (f : World -> B) (g : Mode -> Mode) :
  (forall w, f (with_this (g (this w)) w) = f w) -> preserves f (modify_this g).
Proof. intros Hf w. apply Hf. Qed.

Lemma preserves_try_catch {B : Type} (f : World -> B) (m : M unit) :
  preserves f m -> preserves f (try_catch m).
Proof. intros Hm w. rewrite try_catch_returns. apply Hm. Qed.

(** Walks through a handler; the side conditions say that the observation
    does not look at what a step writes. *)
Ltac framed :=
  repeat first
    [ apply preserves_bind; [|intros ?]
    | apply preserves_try_catch
    | apply preserves_ret
    | apply preserves_throw
    | apply preserves_get_this
    | apply preserves_gets
    | apply preserves_query
    | apply preserves_modify; intros; reflexivity
    | apply preserves_call_store; intros; reflexivity
    | apply preserves_call_behavior; intros; reflexivity
    | apply preserves_setCursor; intros; reflexivity
    | match goal with
      | |- preserves _ (match ?x with _ => _ end) => destruct x
      | |- preserves _ (let _ := _ in _) => cbv zeta
      end ].

Lemma onMouseMove_preserves_session (event : TerraDrawMouseEvent) :
  preserves session (onMouseMove event).
Proof. unfold onMouseMove, polygonCoordinates, index, slice_to. framed. Qed.

(** X1.  A mouse move never commits: whatever the state and however the
    handler ends, [currentCoordinate] and [currentId] are as before. *)
Theorem onMouseMove_keeps_session (event : TerraDrawMouseEvent) (w : World) :
  session (res_state (onMouseMove event w)) = session w.
Proof. apply onMouseMove_preserves_session. Qed.

Lemma cleanUp_preserves_cursor : preserves cursor cleanUp.
Proof. unfold cleanUp. framed. Qed.

(** X2.  Only [onMouseMove] writes the closed flag, and neither a click nor
    the keyboard touches the cursor: [onClick], [onKeyUp] and [cleanUp]
    leave [isClosed] and the cursor as they found them, however they end.
    In particular a cancel does not clear the flag. *)
Theorem isClosed_and_cursor_kept :
  (forall event w, isClosed (this (res_state (onClick event w))) = isClosed (this w))
  /\ (forall event w, isClosed (this (res_state (onKeyUp event w))) = isClosed (this w))
  /\ (forall w, isClosed (this (res_state (cleanUp w))) = isClosed (this w))
  /\ (forall event w, cursor (res_state (onClick event w)) = cursor w)
  /\ (forall event w, cursor (res_state (onKeyUp event w)) = cursor w)
  /\ (forall w, cursor (res_state (cleanUp w)) = cursor w).
Proof.
  split_and!; intros.
  - revert w. change (preserves (fun w => isClosed (this w)) (onClick event)).
    unfold onClick, polygonCoordinates, index, slice_to. framed.
  - revert w. change (preserves (fun w => isClosed (this w)) (onKeyUp event)).
    unfold onKeyUp, cleanUp. framed.
  - revert w. change (preserves (fun w => isClosed (this w)) cleanUp).
    unfold cleanUp. framed.
  - revert w. change (preserves cursor (onClick event)).
    unfold onClick, polygonCoordinates, index, slice_to. framed.
  - revert w. change (preserves cursor (onKeyUp event)).
    unfold onKeyUp, cleanUp. framed.
  - apply cleanUp_preserves_cursor.
Qed.

End Frames.

Section Steps.
Context `{Collaborators}.

(** Splits a handler into its branches, whatever its outcome. *)
Ltac outcomes :=
  repeat (case_match; simplify_eq/=);
  repeat match goal with
         | u : unit |- _ => destruct u
         | cs : (ClosingPoints * Store)%type |- _ => destruct cs; simpl in *
         end.

Lemma res_state_discard {A : Type} (m : M A) (w : World) :
  res_state ((m;; mret tt) w) = res_state (m w).
Proof. unfold mbind, M_bind. by destruct (m w). Qed.

(** X3.  The shape of the state machine.  Every handler, however it ends,
    leaves the count and the current id as they are, or advances the count
    by exactly one (keeping the id, or setting it at the first click), or
    resets the session to Idle. *)
Theorem session_steps (ev : Event) (w : World) :
  let m := this w in
  let m' := this (res_state (handle ev w)) in
  (currentCoordinate m' = currentCoordinate m /\ currentId m' = currentId m)
  \/ (currentCoordinate m' = S (currentCoordinate m)
      /\ (currentId m' = currentId m \/ currentCoordinate m = 0))
  \/ (currentCoordinate m' = 0 /\ currentId m' = None).
Proof.
  cbv zeta. destruct ev as [e|e|e| | | |]; simpl.
  - rewrite res_state_discard.
    remember (this (res_state (onClick e w))) as m' eqn:Hm'.
    unfold onClick in Hm'. unfold_monad. simpl in Hm'.
    outcomes; simpl;
      repeat match goal with
             | Hzero : (_ =? 0)%nat = true |- _ => apply Nat.eqb_eq in Hzero
             end;
      auto with lia.
  - rewrite res_state_discard.
    pose proof (onMouseMove_preserves_session e w) as Hkept.
    unfold session in Hkept. injection Hkept as Hn Hid. left. by split.
  - unfold onKeyUp. unfold mbind, M_bind, get_this.
    destruct (bool_decide _); [|by left].
    destruct (cleanUp_returns w) as (w' & -> & Hid & Hzero). simpl. auto.
  - by left.
  - by left.
  - by left.
  - by left.
Qed.

End Steps.

Section Edges.
Context `{Collaborators}.

(** Splits a handler into its branches, whatever its outcome. *)
Ltac cases :=
  repeat (case_match; simplify_eq/=);
  repeat match goal with
         | u : unit |- _ => destruct u
         | cs : (ClosingPoints * Store)%type |- _ => destruct cs; simpl in *
         | Hn : (_ =? _)%nat = false |- _ => apply Nat.eqb_neq in Hn
         | Hn : (_ =? _)%nat = true |- _ => apply Nat.eqb_eq in Hn
         end.

(** X4.  A click that throws has not advanced the session: the session
    fields are exactly as before, with one exception, a closing click whose
    marker deletion throws after the session was already reset to Idle. *)
Theorem click_that_throws (event : TerraDrawMouseEvent) (w : World) :
  returned (onClick event w) = false ->
  this (res_state (onClick event w)) = this w
  \/ (3 <= currentCoordinate (this w)
      /\ this (res_state (onClick event w))
         = set_currentId None (set_currentCoordinate 0 (this w))).
Proof.
  remember (onClick event w) as r eqn:Hr. intros Hthrown.
  unfold onClick in Hr. unfold_monad. simpl in Hr.
  cases; simpl in *; try done; auto with lia.
Qed.

(** X5.  Without a current id every click after the first is ignored: with
    a non-zero count and [currentId] undefined (or the empty string, which
    is just as falsy) the handler returns at once, the world untouched and
    the Snap Resolver not even asked. *)
Theorem click_ignored_without_id (event : TerraDrawMouseEvent) (w : World) :
  currentCoordinate (this w) <> 0 ->
  truthy (currentId (this w)) = None ->
  onClick event w = Ret event w.
Proof.
  intros Hn Hid. unfold onClick. unfold_monad. simpl. rewrite Hid.
  by destruct (currentCoordinate (this w)).
Qed.

(** X6.  [onKeyUp] never throws.  Any key but the configured cancel key
    leaves the world untouched; the cancel key leaves the session Idle. *)
Theorem onKeyUp_returns (event : TerraDrawKeyboardEvent) (w : World) :
  exists w',
    onKeyUp event w = Ret tt w'
    /\ (key event <> cancel (keyEvents (this w)) -> w' = w)
    /\ (key event = cancel (keyEvents (this w)) -> idle (this w')).
Proof.
  unfold onKeyUp. unfold mbind, M_bind, get_this.
  destruct (bool_decide _) eqn:Hkey.
  - apply bool_decide_eq_true in Hkey.
    destruct (cleanUp_returns w) as (w' & Hrun & Hidle).
    exists w'. by split_and!.
  - apply bool_decide_eq_false in Hkey. exists w. by split_and!.
Qed.

(** X7.  The closing-points behaviour is left alone until it is needed: a
    click with at most one vertex committed does not touch it, and a mouse
    move does not touch it while there are no markers. *)
Theorem markers_untouched :
  (forall event w,
     currentCoordinate (this w) <= 1 ->
     closingPoints (res_state (onClick event w)) = closingPoints w)
  /\ (forall event w,
       closingPoints_ids (closingPoints w) = [] ->
       closingPoints (res_state (onMouseMove event w)) = closingPoints w).
Proof.
  split; intros event w Hearly.
  - remember (onClick event w) as r eqn:Hr.
    unfold onClick in Hr. unfold_monad. simpl in Hr.
    cases; simpl in *; try done; lia.
  - remember (onMouseMove event w) as r eqn:Hr.
    unfold onMouseMove in Hr. unfold_monad. simpl in Hr.
    cases; simpl in *; try done;
      rewrite Hearly in *; simpl in *; done.
Qed.

(** X8.  In the Drawing state a mouse move that returns leaves the closed
    flag and the cursor telling whether the pointer (after the snap step)
    is in the closing hit-zone: the flag is true and the cursor is the
    pointer exactly when one of the two closing tests succeeded. *)
Theorem move_tracks_hit_zone (event : TerraDrawMouseEvent) (w : World)
    (id : Id) (closest : option Position) (flags : ClosingFlags) :
  3 <= currentCoordinate (this w) ->
  truthy (currentId (this w)) = Some id ->
  resolved w event id = Some closest ->
  closingPoints_isClosingPoint (snap closest event) (closingPoints w, store w)
    = Some flags ->
  returned (onMouseMove event w) = true ->
  isClosed (this (res_state (onMouseMove event w)))
    = isPreviousClosing flags || isClosing flags
  /\ cursor (res_state (onMouseMove event w))
     = if isPreviousClosing flags || isClosing flags
       then "pointer" else "crosshair".
Proof.
  intros Hcount Hid Hres Hflags.
  remember (onMouseMove event w) as r eqn:Hr. intros Hreturned.
  unfold onMouseMove in Hr. unfold_monad. simpl in Hr. rewrite Hid in Hr.
  destruct (currentCoordinate (this w)) as [|[|[|n]]]; [lia..|].
  unfold resolved in Hres.
  destruct (snappingEnabled (this w)); simpl in *;
    [rewrite Hres in Hr | injection Hres as <-]; simpl in *;
    rewrite ?Hflags in Hr; cases; simpl in *; try done;
    destruct (isClosed (this w)); simpl in *; by split.
Qed.

(** X9.  The click that commits the third vertex creates the closing
    markers first, seeded with the ring as it was stored before the click
    and tagged "polygon", then writes the five-entry ring and advances the
    count to 3.  If creating the markers throws, the click throws at that
    point: the ring is not written and the count stays at 2. *)
Theorem third_click (event : TerraDrawMouseEvent) (w : World)
    (id : Id) (ring : Ring) (closest : option Position) :
  currentCoordinate (this w) = 2 ->
  truthy (currentId (this w)) = Some id ->
  resolved w event id = Some closest ->
  storedRing w id ring ->
  coordinatesIdentical
    (lng (snap closest event), lat (snap closest event))
    (mjoin (ring !! 1)) = Some false ->
  let clicked := snap closest event in
  onClick event w =
    (call_behavior (closingPoints_create ring "polygon");;
     call_store (store_updateGeometry
       [(id, Polygon [[mjoin (ring !! 0); mjoin (ring !! 1);
                       position clicked; position clicked;
                       mjoin (ring !! 0)]])]);;
     modify_this (set_currentCoordinate 3);;
     mret clicked) w
  /\ (forall cs,
        closingPoints_create ring "polygon" (closingPoints w, store w) = Exn cs ->
        onClick event w = Exn (with_behavior cs w)).
Proof.
  intros Hn Hid Hres [rest Hring] Hsame. cbv zeta.
  match goal with
  | |- ?run = ?steps /\ _ => assert (run = steps) as Hrun
  end.
  { unfold onClick. unfold_monad. simpl. rewrite Hid, Hn.
    use_resolved Hres; rewrite Hring; simpl; rewrite Hsame; simpl;
      destruct (closingPoints_create _ _ _) as [[] [cp s]|[cp s]]; simpl;
      try done;
      destruct (store_updateGeometry _ _); simpl; by rewrite ?Hn. }
  split; [exact Hrun|].
  intros cs Hcreate. rewrite Hrun. unfold_monad. by rewrite Hcreate.
Qed.

(** X10.  [stop()] ends every session: when the base mode's [setStopped]
    returns, [stop] returns with the session Idle and the cursor unset,
    whatever the store did on the way; when [setStopped] throws, nothing
    else is done. *)
Theorem stop_ends_session (setStopped : M unit) (w w1 : World) :
  (setStopped w = Ret tt w1 ->
   exists w', stop setStopped w = Ret tt w'
     /\ idle (this w') /\ cursor w' = "unset")
  /\ (setStopped w = Exn w1 -> stop setStopped w = Exn w1).
Proof.
  split; intros Hbase; unfold stop.
  - erewrite bind_Ret; [|exact Hbase].
    erewrite bind_Ret; [|reflexivity].
    destruct (cleanUp_returns (with_cursor "unset" w1)) as (w' & Hrun & Hidle).
    exists w'. split_and!; [done..|].
    pose proof (cleanUp_preserves_cursor (with_cursor "unset" w1)) as Hcursor.
    by rewrite Hrun in Hcursor.
  - by erewrite bind_Exn.
Qed.

End Edges.

(** ** The stored ring while drawing *)

(** Splits a handler that returned into its branches. *)
Ltac returned_cases :=
  repeat (case_match; simplify_eq/=);
  repeat match goal with
         | u : unit |- _ => destruct u
         | cs : (ClosingPoints * Store)%type |- _ => destruct cs; simpl in *
         | Hget : store_getGeometryCopy ?id ?s = _,
           Hget' : store_getGeometryCopy ?id ?s = _ |- _ =>
             rewrite Hget in Hget'; simplify_eq/=
         | Hflags : closingPoints_isClosingPoint ?e ?cs = _,
           Hflags' : closingPoints_isClosingPoint ?e ?cs = _ |- _ =>
             rewrite Hflags in Hflags'; simplify_eq/=
         end.

(** The geometry behind [id] after the handler wrote it (and, possibly,
    repositioned the markers afterwards). *)
Ltac stored_after_write :=
  simpl;
  try match goal with
      | Hupd : closingPoints_update _ _ = Ret _ _ |- _ =>
          let Hframe := fresh "Hframe" in
          destruct (update_frame _ _ _ _ _ Hupd) as [_ Hframe];
          rewrite Hframe by assumption
      end;
  eapply get_after_update; eassumption.

Section StoredRing.
Context `{Collaborators} `{!StoreLaws}.

Lemma lookup_tail_lt (ring tail : Ring) (k i : nat) :
  i < length ring - k ->
  (take (length ring - k) ring ++ tail) !! i = ring !! i.
Proof.
  intros Hi. rewrite lookup_app_l by (rewrite length_take; lia).
  by apply lookup_take_lt.
Qed.

Lemma lookup_mjoin (ring : Ring) (i : nat) :
  i < length ring -> Some (mjoin (ring !! i)) = ring !! i.
Proof.
  intros Hi. destruct (ring !! i) as [c|] eqn:Hc; [done|].
  apply lookup_ge_None in Hc. unfold Ring, Coord, Position in *. lia.
Qed.

Lemma closedRing_final (ring : Ring) :
  2 < length ring -> closedRing (finalRing ring).
Proof.
  intros Hlen. unfold finalRing. destruct ring as [|c ring]; [simpl in Hlen; lia|].
  cbn [length] in *.
  replace (S (length ring) - 2) with (S (length ring - 2)) by lia.
  split; [done|]. simpl. by rewrite app_comm_cons, last_snoc.
Qed.

(** The entries below the count are those of the ring before. *)
Ltac committed_entries :=
  let i := fresh "i" in
  let Hi := fresh "Hi" in
  intros i Hi; simpl in Hi;
  first [ apply lookup_tail_lt; lia
        | destruct i as [|[|i]]; simpl;
          first [lia | apply lookup_mjoin; lia] ].

(** X11.  A mouse move only rewrites the uncommitted tail: after a move
    that returns, the stored ring of the polygon under construction has the
    same entries as before at every index below the count, and in the
    Drawing state it has the same length. *)
Theorem move_keeps_committed (event : TerraDrawMouseEvent) (w : World)
    (id : Id) (ring : Ring) :
  consistent w ->
  truthy (currentId (this w)) = Some id ->
  storedRing w id ring ->
  currentCoordinate (this w) <> 0 ->
  currentCoordinate (this w) + 2 <= length ring ->
  returned (onMouseMove event w) = true ->
  exists ring',
    storedRing (res_state (onMouseMove event w)) id ring'
    /\ (forall i, i < currentCoordinate (this w) -> ring' !! i = ring !! i)
    /\ (3 <= currentCoordinate (this w) -> length ring' = length ring).
Proof.
  intros Hw Hid [rest Hring] Hn Hlen.
  pose proof (id_not_marker w Hw id Hid) as Hmarker.
  destruct (onMouseMove event w) as [e' w'|w'] eqn:Hrun; [|done]. intros _.
  unfold onMouseMove in Hrun. unfold_monad. simpl in Hrun.
  rewrite Hid in Hrun.
  destruct (currentCoordinate (this w)) as [|[|[|n]]]; [done|..];
    returned_cases;
    (eexists; split; [eexists; stored_after_write|]);
    (split; [committed_entries | intros; rewrite ?length_tail; lia]).
Qed.

(** X12.  A click outside the closing hit-zone never changes a committed
    vertex either: whether it is ignored, vetoed or accepted, the handle
    stays the current id and the stored ring has the same entries as before
    at every index below the old count. *)
Theorem click_keeps_committed (event : TerraDrawMouseEvent) (w : World)
    (id : Id) (ring : Ring) :
  consistent w ->
  truthy (currentId (this w)) = Some id ->
  storedRing w id ring ->
  currentCoordinate (this w) <> 0 ->
  currentCoordinate (this w) + 2 <= length ring ->
  (3 <= currentCoordinate (this w) -> outsideClosingZone w event) ->
  returned (onClick event w) = true ->
  exists ring',
    storedRing (res_state (onClick event w)) id ring'
    /\ truthy (currentId (this (res_state (onClick event w)))) = Some id
    /\ (forall i, i < currentCoordinate (this w) -> ring' !! i = ring !! i).
Proof.
  intros Hw Hid [rest Hring] Hn Hlen Hzone.
  destruct (onClick event w) as [e' w'|w'] eqn:Hrun; [|done]. intros _.
  unfold onClick in Hrun. unfold_monad. simpl in Hrun.
  rewrite Hid in Hrun.
  destruct (currentCoordinate (this w)) as [|[|[|n]]]; [done|..].
  - returned_cases;
      first [ by eexists; split; [eexists; eassumption|]
            | eexists; split; [eexists; stored_after_write|];
              split; [done | committed_entries] ].
  - returned_cases;
      first [ by eexists; split; [eexists; eassumption|]
            | eexists; split; [eexists; stored_after_write|];
              split; [done | committed_entries] ].
  - destruct Hzone as (flags & Hflags & Houtside); [lia|].
    returned_cases;
      first [ congruence
            | by eexists; split; [eexists; eassumption|]
            | eexists; split; [eexists; stored_after_write|];
              split; [done | committed_entries] ].
Qed.

(** *** The length of the stored ring *)

Lemma sized_written (w : World) (id : Id) (written : Ring) :
  truthy (currentId (this w)) = Some id ->
  store_getGeometryCopy id (store w) = Some (Polygon [written]) ->
  length written =
    (if (currentCoordinate (this w) =? 1)%nat then 4
     else currentCoordinate (this w) + 2) ->
  sized w.
Proof.
  intros Hid Hget Hlen id' ring' Hid' [rest Hring].
  assert (id' = id) as -> by congruence.
  rewrite Hget in Hring. by injection Hring as <- _.
Qed.

Lemma sized_no_session (w : World) :
  truthy (currentId (this w)) = None -> sized w.
Proof. intros Hnone id ring Hid. congruence. Qed.

Lemma sized_same (w w' : World) :
  sized w ->
  currentCoordinate (this w') = currentCoordinate (this w) ->
  currentId (this w') = currentId (this w) ->
  store w' = store w ->
  sized w'.
Proof.
  intros Hw Hn Hid Hs id ring. unfold storedRing. rewrite Hn, Hid, Hs.
  apply Hw.
Qed.

(** Closes a branch in which a ring was written behind [id]. *)
Ltac sized_after_write id :=
  eapply (sized_written _ id);
    [ simpl; eassumption
    | stored_after_write
    | simpl;
      try match goal with
          | Hn : currentCoordinate (this ?w) = _
            |- context [currentCoordinate (this ?w)] => rewrite Hn
          end;
      simpl; rewrite ?length_tail; unfold Ring, Coord, Position in *; lia ].

Lemma onClick_sized (event event' : TerraDrawMouseEvent) (w w' : World) :
  consistent w ->
  sized w ->
  onClick event w = Ret event' w' ->
  sized w'.
Proof.
  intros Hw Hsized Hrun. unfold onClick in Hrun. unfold_monad. simpl in Hrun.
  destruct (truthy (currentId (this w))) as [id|] eqn:Hid.
  - destruct (ring_shape w Hw id Hid) as (ring & [rest Hring] & _ & _).
    pose proof (Hsized id ring Hid (ex_intro _ rest Hring)) as Hlen.
    pose proof (idle_no_id w Hw) as Hidle.
    destruct (currentCoordinate (this w)) as [|[|[|n]]] eqn:Hn;
      [rewrite Hidle in Hid; done|..]; simpl in Hlen;
      returned_cases; try done;
      first [ sized_after_write id | by apply sized_no_session ].
  - returned_cases; try done.
    destruct (truthy (head a)) as [id|] eqn:Hnew.
    + apply (sized_written _ id (firstRing event')); simpl; [done| |].
      2: { match goal with
           | Hzero : (_ =? 0)%nat = true |- _ =>
               apply Nat.eqb_eq in Hzero; by rewrite Hzero
           end. }
      eapply (get_after_create (mkFeature _ _)); [eassumption|].
      by apply truthy_Some.
    + by apply sized_no_session.
Qed.

Lemma onMouseMove_sized (event event' : TerraDrawMouseEvent) (w w' : World) :
  consistent w ->
  sized w ->
  onMouseMove event w = Ret event' w' ->
  sized w'.
Proof.
  intros Hw Hsized Hrun. unfold onMouseMove in Hrun. unfold_monad.
  simpl in Hrun.
  destruct (truthy (currentId (this w))) as [id|] eqn:Hid.
  - destruct (ring_shape w Hw id Hid) as (ring & [rest Hring] & _ & _).
    pose proof (Hsized id ring Hid (ex_intro _ rest Hring)) as Hlen.
    pose proof (id_not_marker w Hw id Hid) as Hmarker.
    pose proof (idle_no_id w Hw) as Hidle.
    destruct (currentCoordinate (this w)) as [|[|[|n]]] eqn:Hn;
      [rewrite Hidle in Hid; done|..]; simpl in Hlen;
      returned_cases; sized_after_write id.
  - simplify_eq. by eapply sized_same.
Qed.

Lemma run_sized (evs : list Event) (w : World) :
  forallb pointer evs = true ->
  completes evs w = true ->
  consistent w ->
  sized w ->
  consistent (run evs w) /\ sized (run evs w).
Proof.
  revert w. induction evs as [|ev evs IH]; intros w Hpointer Hdone Hw Hsized;
    [done|].
  simpl in *.
  apply andb_true_iff in Hpointer as [Hev Hevs].
  apply andb_true_iff in Hdone as [Hret Hrest].
  apply IH; [done..| |].
  - by apply handle_consistent.
  - destruct ev as [e|e| | | | |]; try done; simpl in *;
      unfold mbind, M_bind, mret, M_ret in *.
    + destruct (onClick e w) as [e' w'|w'] eqn:Hrun; [|done].
      eauto using onClick_sized.
    + destruct (onMouseMove e w) as [e' w'|w'] eqn:Hrun; [|done].
      eauto using onMouseMove_sized.
Qed.

(** X13.  The ring has the length the count calls for.  Start from a world
    where that is so (a freshly constructed mode is one) and deliver any
    clicks and mouse moves that run to completion: the stored ring of the
    polygon under construction then has four entries while one vertex is
    committed, and [currentCoordinate + 2] entries from the second vertex
    on (the committed vertices, the preview entry and the closing entry). *)
Theorem ring_sized_throughout (evs : list Event) (w : World) (id : Id)
    (ring : Ring) :
  consistent w ->
  sized w ->
  forallb pointer evs = true ->
  completes evs w = true ->
  truthy (currentId (this (run evs w))) = Some id ->
  storedRing (run evs w) id ring ->
  length ring =
    if (currentCoordinate (this (run evs w)) =? 1)%nat then 4
    else currentCoordinate (this (run evs w)) + 2.
Proof.
  intros Hw Hsized Hpointer Hdone Hid Hring.
  by apply (proj2 (run_sized evs w Hpointer Hdone Hw Hsized) id ring).
Qed.

End StoredRing.

Section Finished.
Context `{Collaborators} `{!StoreLaws} `{!DeleteLaws}.

(** X14.  What a closing click leaves behind.  In the Drawing state a click
    in the closing hit-zone that returns leaves, behind the handle of the
    polygon, the stored ring without its preview entry: one entry shorter,
    closed (first and last coordinate the same), and with every committed
    vertex where it was.  The session is Idle and no markers are left. *)
Theorem closing_click_result (event : TerraDrawMouseEvent) (w : World)
    (id : Id) (ring : Ring) :
  consistent w ->
  3 <= currentCoordinate (this w) ->
  truthy (currentId (this w)) = Some id ->
  storedRing w id ring ->
  inClosingZone w event ->
  returned (onClick event w) = true ->
  storedRing (res_state (onClick event w)) id (finalRing ring)
  /\ closedRing (finalRing ring)
  /\ length (finalRing ring) = length ring - 1
  /\ (forall i, i < length ring - 2 -> finalRing ring !! i = ring !! i)
  /\ idle (this (res_state (onClick event w)))
  /\ closingPoints_ids (closingPoints (res_state (onClick event w))) = [].
Proof.
  intros Hw Hcount Hid [rest Hring] (flags & Hflags & Hzone).
  destruct (ring_shape w Hw id Hid) as (ring0 & [rest0 Hring0] & Hlen & _).
  assert (ring0 = ring) as -> by congruence.
  pose proof (id_not_marker w Hw id Hid) as Hmarker.
  destruct (onClick event w) as [e' w'|w'] eqn:Hrun; [|done]. intros _.
  unfold onClick in Hrun. unfold_monad. simpl in Hrun. rewrite Hid in Hrun.
  destruct (currentCoordinate (this w)) as [|[|[|n]]]; [lia..|].
  assert (length (finalRing ring) = length ring - 1) as Hfinal.
  { unfold finalRing. rewrite length_app, length_take. simpl.
    unfold Ring, Coord, Position in *. lia. }
  split_and!; [| apply closedRing_final; lia | done
               | intros i Hi; by apply lookup_tail_lt | |];
    returned_cases; try congruence; simpl;
    first
      [ done
      | eapply delete_clears; eassumption
      | exists []; simpl;
        match goal with
        | Hdel : closingPoints_delete _ = Ret _ _ |- _ =>
            rewrite (delete_frame _ _ _ _ id Hdel) by assumption
        end;
        eapply get_after_update; eassumption ].
Qed.

End Finished.

(** ** Styling *)

Section StylingProperties.
Context {OtherStyles : Type}.
Implicit Types (styles : Styles) (defaults : TerraDrawAdapterStyling OtherStyles).

(** X15.  [styleFeature] leaves the features of other modes alone, and those
    of its own mode that are neither a Polygon nor a Point: they get the
    default styling, untouched. *)
Theorem styleFeature_foreign styles defaults (feature : GeoJSONStoreFeatures) :
  properties_mode feature <> Some mode
  \/ (geometry_type feature <> "Polygon" /\ geometry_type feature <> "Point") ->
  styleFeature styles defaults feature = defaults.
Proof.
  intros Hforeign. unfold styleFeature.
  repeat case_bool_decide; try done; by destruct Hforeign as [? | [? ?]].
Qed.

(** X16.  The polygon is drawn below its closing markers, and each kind of
    feature only gets its own fields set: a Polygon of the mode has z-index
    10 and the default point fields, a Point of the mode has z-index 30 and
    the default polygon fields; the styles that the mode does not write are
    always the defaults.  The configured [fillOpacity] is never read. *)
Theorem styleFeature_layers styles defaults (feature : GeoJSONStoreFeatures) :
  properties_mode feature = Some mode ->
  let styled := styleFeature styles defaults feature in
  otherStyles styled = otherStyles defaults
  /\ (geometry_type feature = "Polygon" ->
      zIndex styled = 10%float
      /\ pointWidth styled = pointWidth defaults
      /\ pointColor styled = pointColor defaults
      /\ pointOutlineColor styled = pointOutlineColor defaults
      /\ pointOutlineWidth styled = pointOutlineWidth defaults)
  /\ (geometry_type feature = "Point" ->
      zIndex styled = 30%float
      /\ polygonFillColor styled = polygonFillColor defaults
      /\ polygonOutlineColor styled = polygonOutlineColor defaults
      /\ polygonOutlineWidth styled = polygonOutlineWidth defaults)
  /\ (forall opacity,
        styleFeature
          (mkStyles (fillColor styles) (outlineColor styles)
             (outlineWidth styles) opacity (closingPointWidth styles)
             (closingPointColor styles) (closingPointOutlineWidth styles)
             (closingPointOutlineColor styles)) defaults feature
        = styled).
Proof.
  intros Hmode. cbv zeta. unfold styleFeature. rewrite Hmode.
  rewrite bool_decide_eq_true_2 by done.
  split_and!.
  - by repeat case_bool_decide.
  - intros ->. by rewrite bool_decide_eq_true_2.
  - intros ->. rewrite bool_decide_eq_false_2 by done.
    by rewrite bool_decide_eq_true_2.
  - done.
Qed.

(** X17.  Falsy styles fall back.  For a Polygon of the mode an outline
    width of 0 (like an omitted one) gives the default width and an empty
    fill colour gives the default colour, while a non-empty fill colour is
    used as it is.  For a Point of the mode an omitted outline colour or
    width gives "#ffffff" and 2, whatever the default styling says. *)
Theorem styleFeature_fallbacks styles defaults (feature : GeoJSONStoreFeatures) :
  properties_mode feature = Some mode ->
  let styled := styleFeature styles defaults feature in
  (geometry_type feature = "Polygon" ->
     (outlineWidth styles = Some 0%float \/ outlineWidth styles = None ->
      polygonOutlineWidth styled = polygonOutlineWidth defaults)
     /\ (fillColor styles = Some EmptyString \/ fillColor styles = None ->
         polygonFillColor styled = polygonFillColor defaults)
     /\ (forall colour, colour <> EmptyString ->
           fillColor styles = Some colour -> polygonFillColor styled = colour))
  /\ (geometry_type feature = "Point" ->
      (closingPointOutlineColor styles = None ->
       pointOutlineColor styled = "#ffffff")
      /\ (closingPointOutlineWidth styles = None
          \/ closingPointOutlineWidth styles = Some 0%float ->
          pointOutlineWidth styled = 2%float)).
Proof.
  intros Hmode. cbv zeta. unfold styleFeature. rewrite Hmode.
  rewrite bool_decide_eq_true_2 by done.
  split.
  - intros ->. rewrite bool_decide_eq_true_2 by done. simpl. split_and!.
    + by intros [-> | ->].
    + by intros [-> | ->].
    + intros colour Hcolour ->. by destruct colour.
  - intros ->. rewrite bool_decide_eq_false_2 by done.
    rewrite bool_decide_eq_true_2 by done. simpl. split.
    + by intros ->.
    + by intros [-> | ->].
Qed.

End StylingProperties.

(** ** The reference implementation and the markers *)

Section ReferenceDelete.
Import Reference.

Lemma lookup_removed (ms : list Id) (s : RefStore) (id : Id) :
  id ∉ ms -> features (foldl remove s ms) !! id = features s !! id.
Proof.
  revert s. induction ms as [|m ms IH]; intros s Hid; [done|].
  apply not_elem_of_cons in Hid as [Hne Hid]. simpl.
  rewrite IH by done. simpl. by rewrite lookup_delete_ne.
Qed.

Lemma ref_delete_frame (cp : RefClosing) (s : RefStore) (cp' : RefClosing)
    (s' : RefStore) (id : Id) :
  ref_closing_delete (cp, s) = Ret tt (cp', s') ->
  id ∉ ids cp ->
  ref_getGeometryCopy id s' = ref_getGeometryCopy id s.
Proof.
  unfold ref_closing_delete. simpl.
  destruct (ids cp) as [|m ms] eqn:Hids; [by intros [= <- <-]|].
  unfold ref_delete. destruct (forallb _ _); [|done].
  intros [= <- <-] Hid. unfold ref_getGeometryCopy.
  change (foldl remove (remove s m) ms) with (foldl remove s (m :: ms)).
  by rewrite lookup_removed.
Qed.

#[export] Instance reference_delete_laws : DeleteLaws (H := reference).
Proof. split. exact ref_delete_frame. Qed.

End ReferenceDelete.

(** ** The preview entry, drags, and the invariants of a session *)

Section Preview.
Context `{Collaborators} `{!StoreLaws}.

Lemma lookup_tail_at (ring : Ring) (a b : Coord) (n : nat) :
  length ring = n + 2 ->
  (take (length ring - 2) ring ++ [a; b]) !! n = Some a.
Proof.
  intros Hlen. rewrite lookup_app_r by (rewrite length_take; lia).
  rewrite length_take. by replace (n - _) with 0 by lia.
Qed.

(** X21.  The preview entry follows the pointer.  After a mouse move that
    returns, the stored ring has at index [currentCoordinate] the pointer's
    coordinate (the snapped one when the Snap Resolver gave one); in the
    Drawing state that is so outside the closing hit-zone, while inside it
    the preview entry is the first vertex of the ring. *)
Theorem move_previews_pointer (event : TerraDrawMouseEvent) (w : World)
    (id : Id) (ring : Ring) (closest : option Position) :
  consistent w ->
  sized w ->
  truthy (currentId (this w)) = Some id ->
  currentCoordinate (this w) <> 0 ->
  resolved w event id = Some closest ->
  storedRing w id ring ->
  returned (onMouseMove event w) = true ->
  exists ring',
    storedRing (res_state (onMouseMove event w)) id ring'
    /\ (3 <= currentCoordinate (this w) ->
        inClosingZone w (snap closest event) ->
        ring' !! currentCoordinate (this w) = ring !! 0)
    /\ ((3 <= currentCoordinate (this w) ->
         outsideClosingZone w (snap closest event)) ->
        ring' !! currentCoordinate (this w)
        = Some (position (snap closest event))).
Proof.
  intros Hw Hsized Hid Hn Hres Hring.
  pose proof (Hsized id ring Hid Hring) as Hlen. destruct Hring as [rest Hring].
  pose proof (id_not_marker w Hw id Hid) as Hmarker.
  destruct (onMouseMove event w) as [e' w'|w'] eqn:Hrun; [|done]. intros _.
  unfold onMouseMove in Hrun. unfold_monad. simpl in Hrun.
  rewrite Hid in Hrun. unfold resolved in Hres.
  destruct (currentCoordinate (this w)) as [|[|[|n]]]; [done|..];
    simpl in Hlen;
    (destruct (snappingEnabled (this w)); simpl in *;
     [rewrite Hres in Hrun | injection Hres as <-]; simpl in *);
    returned_cases;
    (eexists; split; [eexists; stored_after_write|]);
    (split;
     [ intros Hcount (flags' & Hflags' & Hzone)
     | intros Hzone;
       try (destruct Hzone as (flags' & Hflags' & Hzone); [lia|]) ]);
    first
      [ lia
      | done
      | congruence
      | rewrite lookup_tail_at by done; apply lookup_mjoin;
        unfold Ring, Coord, Position in *; lia
      | by rewrite lookup_tail_at ].
Qed.

End Preview.

Section Passive.
Context `{Collaborators}.

Lemma run_snoc (evs : list Event) (ev : Event) (w : World) :
  run (evs ++ [ev]) w = res_state (handle ev (run evs w)).
Proof. unfold run. by rewrite foldl_app. Qed.

Lemma completes_snoc (evs : list Event) (ev : Event) (w : World) :
  completes (evs ++ [ev]) w
  = completes evs w && returned (handle ev (run evs w)).
Proof.
  revert w. induction evs as [|e evs IH]; intros w; simpl.
  - by rewrite andb_true_r.
  - by rewrite IH, andb_assoc.
Qed.

(** X22.  Drags and key presses do not disturb a drawing.  Through any
    sequence of [onKeyDown], [onDragStart], [onDrag] and [onDragEnd] no
    handler throws, and the mode, the store and the closing-points
    behaviour are as before; only the cursor changes, and it is the
    crosshair again once the sequence ends with [onDragEnd]. *)
Theorem drags_only_move_cursor (evs : list Event) (w : World) :
  forallb passive evs = true ->
  completes evs w = true
  /\ this (run evs w) = this w
  /\ store (run evs w) = store w
  /\ closingPoints (run evs w) = closingPoints w
  /\ (last evs = Some DragEnd -> cursor (run evs w) = "crosshair").
Proof.
  induction evs as [|ev evs IH] using rev_ind; intros Hpassive; [done|].
  rewrite forallb_app in Hpassive. simpl in Hpassive.
  apply andb_true_iff in Hpassive as [Hevs Hev].
  destruct (IH Hevs) as (Hdone & Hthis & Hstore & Hmarkers & _).
  rewrite run_snoc, completes_snoc, Hdone, last_snoc.
  destruct ev; try done; simpl; split_and!; try done.
Qed.

End Passive.

Section Invariants.
Context `{Collaborators} `{!StoreLaws}.

(** X23.  The session, the store and the markers fit together.  From a
    mode as the constructor leaves it, with no markers yet, through any
    clicks and mouse moves that run to completion: with no vertex committed
    there is no current feature; there are markers only from the third
    committed vertex on; and the polygon under construction is never one of
    the markers. *)
Theorem markers_only_while_drawing (evs : list Event)
    (options : option Options) (precision : number) (w : World) :
  this w = constructor options precision ->
  closingPoints_ids (closingPoints w) = [] ->
  forallb pointer evs = true ->
  completes evs w = true ->
  (currentCoordinate (this (run evs w)) = 0 ->
   truthy (currentId (this (run evs w))) = None)
  /\ (currentCoordinate (this (run evs w)) <= 2 ->
      closingPoints_ids (closingPoints (run evs w)) = [])
  /\ (forall id, truthy (currentId (this (run evs w))) = Some id ->
                 id ∉ closingPoints_ids (closingPoints (run evs w))).
Proof.
  intros Hthis Hmarkers Hpointer Hdone.
  assert (consistent (run evs w)) as Hw'
    by eauto using run_consistent, constructed_consistent.
  split_and!.
  - apply (idle_no_id _ Hw').
  - apply (early_no_markers _ Hw').
  - apply (id_not_marker _ Hw').
Qed.

End Invariants.

(** ** The further properties at concrete sessions *)

Section MoreSessions.
Import Reference Scenario MoreScenario.

Lemma drawing_consistent : consistent drawing.
Proof.
  apply (run_consistent
           [Click (at_ 0 0); Move (at_ 1 1); Click (at_ 1 1);
            Move (at_ 2 0); Click (at_ 2 0); Move (at_ 1 (-1))]
           (initial (constructor None 9%float))).
  - vm_compute. reflexivity.
  - vm_compute. reflexivity.
  - by apply (constructed_consistent None 9%float).
Qed.

Lemma click_that_throws_at_orphaned :
  this (res_state (onClick (at_ 1 (-1)) orphaned)) = this orphaned
  \/ (3 <= currentCoordinate (this orphaned)
      /\ this (res_state (onClick (at_ 1 (-1)) orphaned))
         = set_currentId None (set_currentCoordinate 0 (this orphaned))).
Proof.
  apply (click_that_throws (at_ 1 (-1)) orphaned).
  vm_compute. reflexivity.
Defined.

Lemma click_ignored_without_id_at_stuck :
  onClick (at_ 1 1) stuck = Ret (at_ 1 1) stuck.
Proof.
  refine (click_ignored_without_id (at_ 1 1) stuck _ _).
  - vm_compute. lia.
  - vm_compute. reflexivity.
Defined.

Lemma onKeyUp_returns_at_drawing :
  returned (onKeyUp {| key := "Escape" |} drawing) = true
  /\ idle (this (res_state (onKeyUp {| key := "Escape" |} drawing))).
Proof.
  destruct (onKeyUp_returns {| key := "Escape" |} drawing)
    as (w' & Hrun & _ & Hidle).
  revert Hrun. generalize (onKeyUp {| key := "Escape" |} drawing).
  intros ? ->. split; [reflexivity|]. apply Hidle. vm_compute. reflexivity.
Defined.

Lemma markers_untouched_at_first :
  closingPoints (res_state (onClick (at_ 1 1) first)) = closingPoints first
  /\ closingPoints (res_state (onMouseMove (at_ 1 1) first))
     = closingPoints first.
Proof.
  destruct (markers_untouched (H := reference)) as [Hclick Hmove]. split.
  - apply Hclick. vm_compute. lia.
  - apply Hmove. vm_compute. reflexivity.
Defined.

Lemma move_tracks_hit_zone_at_drawing :
  isClosed (this drawing) = false
  /\ isClosed (this (res_state (onMouseMove (at_ 0.1 0.1) drawing))) = true
  /\ cursor (res_state (onMouseMove (at_ 0.1 0.1) drawing)) = "pointer".
Proof.
  split; [vm_compute; reflexivity|].
  refine (move_tracks_hit_zone (at_ 0.1 0.1) drawing "0" None
            {| isClosing := true; isPreviousClosing := false |} _ _ _ _ _).
  - vm_compute. lia.
  - vm_compute. reflexivity.
  - vm_compute. reflexivity.
  - vm_compute. reflexivity.
  - vm_compute. reflexivity.
Defined.

Lemma third_click_at_second :
  currentCoordinate (this (res_state (onClick (at_ 2 0) second))) = 3
  /\ closingPoints_ids (closingPoints (res_state (onClick (at_ 2 0) second)))
     = ["1"; "2"]
  /\ store_getGeometryCopy "2" (store (res_state (onClick (at_ 2 0) second)))
     = Some (Point (1, 1)%float)
  /\ store_getGeometryCopy "0" (store (res_state (onClick (at_ 2 0) second)))
     = Some (Polygon [[Some (0, 0); Some (1, 1); Some (2, 0); Some (2, 0);
                       Some (0, 0)]%float]).
Proof.
  destruct (third_click (at_ 2 0) second "0" secondRing None) as [Hrun _].
  - vm_compute. reflexivity.
  - vm_compute. reflexivity.
  - vm_compute. reflexivity.
  - exists []. vm_compute. reflexivity.
  - vm_compute. reflexivity.
  - repeat split; observe Hrun.
Defined.

Lemma stop_ends_session_at_drawing :
  idle (this (res_state (stop (mret tt) drawing)))
  /\ cursor (res_state (stop (mret tt) drawing)) = "unset".
Proof.
  destruct (stop_ends_session (mret tt) drawing drawing) as [Hstop _].
  destruct (Hstop eq_refl) as (w' & Hrun & Hidle & Hcursor).
  revert Hrun. generalize (stop (mret tt) drawing).
  intros ? ->. by split.
Defined.

Lemma move_keeps_committed_at_drawing :
  exists ring',
    storedRing (res_state (onMouseMove (at_ 3 3) drawing)) "0" ring'
    /\ (forall i, i < currentCoordinate (this drawing) ->
                  ring' !! i = drawingRing !! i)
    /\ (3 <= currentCoordinate (this drawing) ->
        length ring' = length drawingRing).
Proof.
  apply (move_keeps_committed (at_ 3 3) drawing "0" drawingRing).
  - exact drawing_consistent.
  - vm_compute. reflexivity.
  - exists []. vm_compute. reflexivity.
  - vm_compute. lia.
  - vm_compute. lia.
  - vm_compute. reflexivity.
Defined.

Lemma click_keeps_committed_at_drawing :
  exists ring',
    storedRing (res_state (onClick (at_ 1 (-1)) drawing)) "0" ring'
    /\ truthy (currentId (this (res_state (onClick (at_ 1 (-1)) drawing))))
       = Some "0"
    /\ (forall i, i < currentCoordinate (this drawing) ->
                  ring' !! i = drawingRing !! i).
Proof.
  apply (click_keeps_committed (at_ 1 (-1)) drawing "0" drawingRing).
  - exact drawing_consistent.
  - vm_compute. reflexivity.
  - exists []. vm_compute. reflexivity.
  - vm_compute. lia.
  - vm_compute. lia.
  - intros _. exists {| isClosing := false; isPreviousClosing := false |}.
    split; vm_compute; reflexivity.
  - vm_compute. reflexivity.
Defined.

Lemma ring_sized_throughout_at_drawing :
  length drawingRing = 5.
Proof.
  refine (ring_sized_throughout
            [Click (at_ 0 0); Move (at_ 1 1); Click (at_ 1 1);
             Move (at_ 2 0); Click (at_ 2 0); Move (at_ 1 (-1))]
            (initial (constructor None 9%float)) "0" drawingRing
            _ _ _ _ _ _).
  - by apply (constructed_consistent None 9%float).
  - by apply sized_no_session.
  - vm_compute. reflexivity.
  - vm_compute. reflexivity.
  - vm_compute. reflexivity.
  - exists []. vm_compute. reflexivity.
Defined.

Lemma closing_click_result_at_drawing :
  storedRing (res_state (onClick (at_ 0.1 0.1) drawing)) "0"
    (finalRing drawingRing)
  /\ closedRing (finalRing drawingRing)
  /\ length (finalRing drawingRing) = length drawingRing - 1
  /\ (forall i, i < length drawingRing - 2 ->
                finalRing drawingRing !! i = drawingRing !! i)
  /\ idle (this (res_state (onClick (at_ 0.1 0.1) drawing)))
  /\ closingPoints_ids (closingPoints (res_state (onClick (at_ 0.1 0.1) drawing)))
     = [].
Proof.
  apply (closing_click_result (at_ 0.1 0.1) drawing "0" drawingRing).
  - exact drawing_consistent.
  - vm_compute. lia.
  - vm_compute. reflexivity.
  - exists []. vm_compute. reflexivity.
  - exists {| isClosing := true; isPreviousClosing := false |}.
    split; vm_compute; reflexivity.
  - vm_compute. reflexivity.
Defined.

Lemma styleFeature_foreign_at_point :
  styleFeature someStyles defaultStyling foreignFeature = defaultStyling.
Proof.
  apply styleFeature_foreign. left. vm_compute. discriminate.
Defined.

Lemma styleFeature_layers_at_features :
  zIndex (styleFeature someStyles defaultStyling polygonFeature) = 10%float
  /\ zIndex (styleFeature someStyles defaultStyling markerFeature) = 30%float.
Proof.
  split.
  - destruct (styleFeature_layers someStyles defaultStyling polygonFeature
                eq_refl) as (_ & Hpolygon & _).
    by apply Hpolygon.
  - destruct (styleFeature_layers someStyles defaultStyling markerFeature
                eq_refl) as (_ & _ & Hpoint & _).
    by apply Hpoint.
Defined.

Lemma styleFeature_fallbacks_at_features :
  polygonOutlineWidth (styleFeature someStyles defaultStyling polygonFeature)
  = 4%float
  /\ polygonFillColor (styleFeature someStyles defaultStyling polygonFeature)
     = "#ff0000"
  /\ pointOutlineWidth (styleFeature someStyles defaultStyling markerFeature)
     = 2%float.
Proof.
  destruct (styleFeature_fallbacks someStyles defaultStyling polygonFeature
              eq_refl) as [Hpolygon _].
  destruct (Hpolygon eq_refl) as (Hwidth & _ & Hfill).
  destruct (styleFeature_fallbacks someStyles defaultStyling markerFeature
              eq_refl) as [_ Hpoint].
  destruct (Hpoint eq_refl) as [_ Hwidth'].
  split_and!.
  - apply Hwidth. by left.
  - by apply Hfill.
  - apply Hwidth'. by left.
Defined.

Lemma second_click_snapped_at_snappy :
  resolved snappyFirst (at_ 6.1 6.1) "1" = Some (Some (6, 6)%float)
  /\ currentCoordinate (this (res_state (onClick (at_ 6.1 6.1) snappyFirst)))
     = 2
  /\ store_getGeometryCopy "1"
       (store (res_state (onClick (at_ 6.1 6.1) snappyFirst)))
     = Some (Polygon [[Some (5.1, 5.1); Some (6, 6); Some (6, 6);
                       Some (5.1, 5.1)]%float]).
Proof.
  split; [vm_compute; reflexivity|].
  pose proof (second_click_snapped (at_ 6.1 6.1) snappyFirst "1"
                (replicate 4 (Some (5.1, 5.1)%float)) (Some (6, 6)%float))
    as Hrun.
  assert (currentCoordinate (this snappyFirst) = 1) as Hn
    by (vm_compute; reflexivity).
  assert (truthy (currentId (this snappyFirst)) = Some "1") as Hid
    by (vm_compute; reflexivity).
  assert (resolved snappyFirst (at_ 6.1 6.1) "1" = Some (Some (6, 6)%float))
    as Hres by (vm_compute; reflexivity).
  assert (storedRing snappyFirst "1" (replicate 4 (Some (5.1, 5.1)%float)))
    as Hring by (exists []; vm_compute; reflexivity).
  specialize (Hrun Hn Hid Hres Hring).
  assert (coordinatesIdentical
            (lng (snap (Some (6, 6)%float) (at_ 6.1 6.1)),
             lat (snap (Some (6, 6)%float) (at_ 6.1 6.1)))
            (mjoin (replicate 4 (Some (5.1, 5.1)%float) !! 0)) = Some false)
    as Hsame by (vm_compute; reflexivity).
  specialize (Hrun Hsame).
  split; observe Hrun.
Defined.

Lemma cleanUp_again_at_initial :
  cleanUp (initial (constructor None 9%float))
  = Ret tt (initial (constructor None 9%float)).
Proof.
  apply cleanUp_again.
  - split; vm_compute; reflexivity.
  - vm_compute. reflexivity.
Defined.

Lemma cleanUp_deletes_both_at_drawing :
  closingPoints_ids (closingPoints drawing) = ["1"; "2"]
  /\ closingPoints_ids (closingPoints (res_state (cleanUp drawing))) = []
  /\ store_getGeometryCopy "0" (store (res_state (cleanUp drawing))) = None
  /\ store_getGeometryCopy "1" (store (res_state (cleanUp drawing))) = None
  /\ store_getGeometryCopy "2" (store (res_state (cleanUp drawing))) = None.
Proof.
  split; [vm_compute; reflexivity|].
  assert (truthy (currentId (this drawing)) = Some "0") as Hid
    by (vm_compute; reflexivity).
  assert (closingPoints_ids (closingPoints drawing) <> []) as Hmarkers
    by (vm_compute; discriminate).
  pose proof (cleanUp_deletes_both drawing "0"
                (after (ref_delete ["0"] (store drawing))) Hid) as Hrun.
  assert (store_delete ["0"] (store drawing)
          = Ret tt (after (ref_delete ["0"] (store drawing)))) as Hdel
    by (vm_compute; reflexivity).
  specialize (Hrun Hdel Hmarkers).
  repeat split; observe Hrun.
Defined.

Lemma move_previews_pointer_at_drawing :
  exists ring',
    storedRing (res_state (onMouseMove (at_ 3 3) drawing)) "0" ring'
    /\ (3 <= currentCoordinate (this drawing) ->
        inClosingZone drawing (snap None (at_ 3 3)) ->
        ring' !! currentCoordinate (this drawing) = drawingRing !! 0)
    /\ ((3 <= currentCoordinate (this drawing) ->
         outsideClosingZone drawing (snap None (at_ 3 3))) ->
        ring' !! currentCoordinate (this drawing)
        = Some (position (snap None (at_ 3 3)))).
Proof.
  apply (move_previews_pointer (at_ 3 3) drawing "0" drawingRing None).
  - exact drawing_consistent.
  - apply (run_sized
             [Click (at_ 0 0); Move (at_ 1 1); Click (at_ 1 1);
              Move (at_ 2 0); Click (at_ 2 0); Move (at_ 1 (-1))]
             (initial (constructor None 9%float))).
    + vm_compute. reflexivity.
    + vm_compute. reflexivity.
    + by apply (constructed_consistent None 9%float).
    + by apply sized_no_session.
  - vm_compute. reflexivity.
  - vm_compute. lia.
  - vm_compute. reflexivity.
  - exists []. vm_compute. reflexivity.
  - vm_compute. reflexivity.
Defined.

Lemma drags_only_move_cursor_at_drawing :
  this (run [DragStart; Drag; KeyDown; Drag; DragEnd] drawing) = this drawing
  /\ cursor (run [DragStart; Drag; KeyDown; Drag; DragEnd] drawing)
     = "crosshair".
Proof.
  destruct (drags_only_move_cursor
              [DragStart; Drag; KeyDown; Drag; DragEnd] drawing eq_refl)
    as (_ & Hthis & _ & _ & Hcursor).
  split; [exact Hthis | by apply Hcursor].
Defined.

Lemma markers_only_while_drawing_at_second :
  closingPoints_ids (closingPoints second) = [].
Proof.
  refine (proj1 (proj2
    (markers_only_while_drawing
       [Click (at_ 0 0); Move (at_ 1 1); Click (at_ 1 1); Move (at_ 2 0)]
       None 9%float (initial (constructor None 9%float)) _ _ _ _)) _).
  - reflexivity.
  - vm_compute. reflexivity.
  - vm_compute. reflexivity.
  - vm_compute. reflexivity.
  - vm_compute. lia.
Defined.

End MoreSessions.
